(** * Cart and order engine of the storefront: a shallow embedding

    The embedded code lives in
    - [client/lib/supabaseClient.ts]   (the [cart] and [orders] helpers,
      and further down [products], [wishlist], [paymentMethods], [admin]),
    - [client/contexts/CartContext.tsx] (the [CartProvider] operations),
    - [client/pages/ProductDetail.tsx]  (the quantity picker),
    - [client/pages/AdminPanel.tsx]     (the orders tab),
    - the [WishlistButton] component,
    - [supabase/migrations/20250907000000_final_consolidated_schema.sql]
      (the tables, constraints and row-level-security policies the helpers
      run against).

    The checkout routine [createOrder] belongs to [client/pages/Checkout],
    a page [client/App.tsx] imports and the sources do not contain; it is
    modelled from the specification, on top of the embedded [orders.create].

    The policies are the ones the migration creates.  Several of them test
    for an administrator with a sub-select on [profiles]; [profiles] itself
    carries "Admins can view all profiles", which selects from [profiles].
    For a session of the [authenticated] role the server cannot expand
    that policy and refuses every statement that needs it (42P17).

    JavaScript numbers are IEEE-754 doubles: prices and totals are carried
    as primitive floats, whose operations round exactly like the ones of
    the JavaScript engine.  Quantities are the [integer] column of
    [cart_items]; they are carried as [Z], and the server refuses what
    does not fit the column. *)

From Stdlib Require Import ZArith List Bool String Lia.
From Stdlib Require Import PrimFloat Uint63.
Import ListNotations.

Local Open Scope Z_scope.

(** ** Identifiers and numbers *)

(** Rows are keyed by [uuid] columns filled by [gen_random_uuid()]; the
    model draws them from a counter kept in the database. *)
Definition uuid := nat.
Bind Scope nat_scope with uuid.

Definition number := float.

(** A quantity read from an [integer] column, as the JavaScript number the
    client multiplies with. *)
Definition number_of_Z (z : Z) : number :=
  match z with
  | Z0 => PrimFloat.zero
  | Zpos _ => PrimFloat.of_uint63 (Uint63.of_Z z)
  | Zneg p => PrimFloat.opp (PrimFloat.of_uint63 (Uint63.of_Z (Zpos p)))
  end.

(** ** Rows of the schema *)

(** [products]: the columns the cart reads. *)
Record Product := mkProduct {
  p_id : uuid;
  p_name : string;
  p_price : number;
  p_stock : Z;
  p_is_active : bool
}.

(** [profiles]: the key and the two admin markers the policies read. *)
Record Profile := mkProfile {
  pr_id : uuid;
  pr_is_admin : bool;
  pr_role : string
}.

(** [cart_items]. *)
Record CartRow := mkCartRow {
  c_id : uuid;
  c_user_id : uuid;
  c_product_id : uuid;
  c_quantity : Z
}.

(** [orders.status], the values of the column's CHECK constraint. *)
Inductive Status := pending | processing | shipped | completed | cancelled.

(** One entry of [orders.products]: [{product_id, title, price, quantity}]. *)
Record OrderLine := mkOrderLine {
  ol_product_id : uuid;
  ol_title : string;
  ol_price : number;
  ol_quantity : Z
}.

(** [Omit<Order, 'id' | 'created_at' | 'updated_at'>], the argument of
    [orders.create]. *)
Record NewOrder := mkNewOrder {
  no_user_id : uuid;
  no_products : list OrderLine;
  no_total : number;
  no_status : Status;
  no_shipping_address : string
}.

(** [orders]. *)
Record OrderRow := mkOrderRow {
  o_id : uuid;
  o_user_id : uuid;
  o_products : list OrderLine;
  o_total : number;
  o_status : Status;
  o_shipping_address : string
}.

Record Database := mkDatabase {
  profiles : list Profile;
  products : list Product;
  cart_items : list CartRow;
  orders : list OrderRow;
  next_uuid : uuid
}.

(** ** Results of a store call *)

Inductive StoreError :=
| FetchFailed           (* the request never reached the service *)
| NotSingleRow          (* PGRST116: [.single()] on zero or several rows *)
| PolicyViolation       (* 42501: row-level security WITH CHECK *)
| CheckViolation        (* 23514 *)
| UniqueViolation       (* 23505 *)
| ForeignKeyViolation   (* 23503 *)
| PolicyRecursion       (* 42P17: infinite recursion in the policy of [profiles] *)
| NumericOutOfRange.    (* 22003: the value does not fit an [integer] column *)

(** The [{ data, error }] object every supabase-js call resolves to; the
    client never throws. *)
Record Response (A : Type) := mkResponse {
  data : option A;
  error : option StoreError
}.
Arguments mkResponse {A} _ _.
Arguments data {A} _.
Arguments error {A} _.

Definition ok {A} (a : A) : Response A := mkResponse (Some a) None.
Definition done {A} : Response A := mkResponse None None.
Definition failed {A} (e : StoreError) : Response A := mkResponse None (Some e).

(** ** The tables, their constraints and their policies *)

Module Pg.

(** A session with a token runs under the [authenticated] role, one
    without under the anonymous role. *)
Definition authenticated (uid : option uuid) : bool :=
  match uid with
  | Some _ => true
  | None => false
  end.

(** The values an [integer] column holds. *)
Definition int4 (z : Z) : bool := (-2147483648 <=? z) && (z <=? 2147483647).

(** "Users can manage own cart items": [user_id = auth.uid()]. *)
Definition owns (uid : option uuid) (r : CartRow) : bool :=
  match uid with
  | Some u => Nat.eqb (c_user_id r) u
  | None => false
  end.

Definition same_line (u p : uuid) (r : CartRow) : bool :=
  Nat.eqb (c_user_id r) u && Nat.eqb (c_product_id r) p.

Definition set_quantity (q : Z) (r : CartRow) : CartRow :=
  mkCartRow (c_id r) (c_user_id r) (c_product_id r) q.

Definition set_cart_items (rows : list CartRow) (d : Database) : Database :=
  mkDatabase (profiles d) (products d) rows (orders d) (next_uuid d).


(** [from('cart_items').select('*, product:products( * )').eq('user_id', u)].
    The embedded resource brings the policies of [products] into the
    statement.  Under the [authenticated] role these include "Admins can
    manage all products", whose sub-select on [profiles] needs the
    policies of [profiles]: the statement is refused.  The anonymous role
    has no policy on [cart_items] and is shown no row. *)
Definition select_cart_items (u : uuid) (uid : option uuid) (d : Database)
  : Response (list (CartRow * option Product)) * Database :=
  if authenticated uid then (failed PolicyRecursion, d) else (ok [], d).

(** [select('*').eq('user_id', u).eq('product_id', p).single()]: only the
    own-row policy of [cart_items] is involved. *)
Definition select_cart_item (u p : uuid) (uid : option uuid) (d : Database)
  : Response CartRow * Database :=
  match filter (fun r => same_line u p r && owns uid r) (cart_items d) with
  | [r] => (ok r, d)
  | _ => (failed NotSingleRow, d)
  end.

(** [update({ quantity: q }).eq('id', i).select().single()]: a value
    outside the column's range is refused; the CHECK [quantity > 0] is
    evaluated on the rows the statement touches; a result that is not
    exactly one row is an error and changes nothing. *)
Definition update_quantity (i : uuid) (q : Z) (uid : option uuid) (d : Database)
  : Response CartRow * Database :=
  let hit := fun r => Nat.eqb (c_id r) i && owns uid r in
  if negb (int4 q) then (failed NumericOutOfRange, d)
  else
    match filter hit (cart_items d) with
    | [] => (failed NotSingleRow, d)
    | [r] =>
        if q <=? 0 then (failed CheckViolation, d)
        else (ok (set_quantity q r),
              set_cart_items
                (map (fun r => if hit r then set_quantity q r else r) (cart_items d)) d)
    | _ => if q <=? 0 then (failed CheckViolation, d) else (failed NotSingleRow, d)
    end.

(** [insert([{ user_id, product_id, quantity }]).select().single()]: the
    range of the column, the policy's check, then CHECK, then
    UNIQUE(user_id, product_id), then the two foreign keys. *)
Definition insert_cart_item (u p : uuid) (q : Z) (uid : option uuid) (d : Database)
  : Response CartRow * Database :=
  let r := mkCartRow (next_uuid d) u p q in
  if negb (int4 q) then (failed NumericOutOfRange, d)
  else if negb (owns uid r) then (failed PolicyViolation, d)
  else if q <=? 0 then (failed CheckViolation, d)
  else if existsb (same_line u p) (cart_items d) then (failed UniqueViolation, d)
  else if negb (existsb (fun pr => Nat.eqb (pr_id pr) u) (profiles d)
                && existsb (fun pd => Nat.eqb (p_id pd) p) (products d))
       then (failed ForeignKeyViolation, d)
  else (ok r,
        mkDatabase (profiles d) (products d) (cart_items d ++ [r]) (orders d)
                   (S (next_uuid d))).

(** [delete().eq('id', i)]: no [.select()], hence no data; deleting no
    row is not an error. *)
Definition delete_cart_item (i : uuid) (uid : option uuid) (d : Database)
  : Response CartRow * Database :=
  (done,
   set_cart_items
     (filter (fun r => negb (Nat.eqb (c_id r) i && owns uid r)) (cart_items d)) d).

(** [delete().eq('user_id', u)] *)
Definition delete_cart_items (u : uuid) (uid : option uuid) (d : Database)
  : Response CartRow * Database :=
  (done,
   set_cart_items
     (filter (fun r => negb (Nat.eqb (c_user_id r) u && owns uid r)) (cart_items d)) d).

(** [from('orders').insert([order]).select().single()].  The returned
    representation puts the statement under the SELECT policies of
    [orders]; "Admins can view all orders" has the sub-select on
    [profiles], so under the [authenticated] role the statement is
    refused whatever the payload.  The anonymous role has no INSERT policy
    and its row is rejected. *)
Definition insert_order (o : NewOrder) (uid : option uuid) (d : Database)
  : Response OrderRow * Database :=
  if authenticated uid then (failed PolicyRecursion, d)
  else (failed PolicyViolation, d).



End Pg.

(** ** The remote service as seen from one browser session *)

(** The requests the cart and order helpers issue, one per [await]. *)
Inductive Request :=
| SelectCartItems (user_id : uuid)
| SelectCartItem (user_id product_id : uuid)
| UpdateQuantity (item_id : uuid) (quantity : Z)
| InsertCartItem (user_id product_id : uuid) (quantity : Z)
| DeleteCartItem (item_id : uuid)
| DeleteCartItems (user_id : uuid)
| InsertOrder (order : NewOrder)
| UpdateOrderStatus (order_id : uuid) (status : Status).

(** What surrounds one request: nothing, a transport failure, or another
    session of [user_id] whose own insert of a cart line lands first. *)
Inductive Ambient :=
| Quiet
| Outage
| RivalAdd (user_id product_id : uuid) (quantity : Z).

Record Backend := mkBackend {
  db : Database;
  auth_uid : option uuid;       (* [auth.uid()] of this session's token *)
  script : list Ambient;        (* consumed one entry per request *)
  journal : list Request        (* the requests issued so far *)
}.

(** Computations that talk to the service. *)
Definition Store (A : Type) : Type := Backend -> A * Backend.

Definition ret {A} (a : A) : Store A := fun b => (a, b).

Definition bind {A B} (m : Store A) (k : A -> Store B) : Store B :=
  fun b => let (a, b') := m b in k a b'.

Notation "x <- m ;; k" := (bind m (fun x => k))
  (at level 61, m at next level, right associativity).

Definition rival (a : Ambient) (d : Database) : Database :=
  match a with
  | RivalAdd u p q => snd (Pg.insert_cart_item u p q (Some u) d)
  | _ => d
  end.

(** One awaited request: it is journalled, consumes the head of the script
    (an exhausted script is quiet), and unless the transport fails it runs
    against the tables under this session's identity. *)
Definition request {A} (rq : Request)
  (run : option uuid -> Database -> Response A * Database) : Store (Response A) :=
  fun b =>
    let a := hd Quiet (script b) in
    let j := journal b ++ [rq] in
    match a with
    | Outage => (failed FetchFailed, mkBackend (db b) (auth_uid b) (tl (script b)) j)
    | _ =>
        let (r, d) := run (auth_uid b) (rival a (db b)) in
        (r, mkBackend d (auth_uid b) (tl (script b)) j)
    end.

(** ** [supabaseClient.ts]: the [cart] helpers *)

Module cart.

(** [cart.getItems]: an error is logged and answered with [[]]. *)
Definition getItems (userId : uuid) : Store (list (CartRow * option Product)) :=
  r <- request (SelectCartItems userId) (Pg.select_cart_items userId) ;;
  match error r with
  | Some _ => ret []
  | None => ret (match data r with Some rows => rows | None => [] end)
  end.

(** [cart.addItem]: look the line up, then update it or insert it. *)
Definition addItem (userId productId : uuid) (quantity : Z) : Store (Response CartRow) :=
  r <- request (SelectCartItem userId productId) (Pg.select_cart_item userId productId) ;;
  match data r with
  | Some existingItem =>
      request (UpdateQuantity (c_id existingItem) (c_quantity existingItem + quantity))
              (Pg.update_quantity (c_id existingItem) (c_quantity existingItem + quantity))
  | None =>
      request (InsertCartItem userId productId quantity)
              (Pg.insert_cart_item userId productId quantity)
  end.

(** [cart.removeItem] *)
Definition removeItem (itemId : uuid) : Store (Response CartRow) :=
  request (DeleteCartItem itemId) (Pg.delete_cart_item itemId).

(** [cart.updateQuantity] *)
Definition updateQuantity (itemId : uuid) (quantity : Z) : Store (Response CartRow) :=
  if quantity <=? 0 then removeItem itemId
  else request (UpdateQuantity itemId quantity) (Pg.update_quantity itemId quantity).

(** [cart.clearCart] *)
Definition clearCart (userId : uuid) : Store (Response CartRow) :=
  request (DeleteCartItems userId) (Pg.delete_cart_items userId).

End cart.

(** ** [supabaseClient.ts]: the [orders] helpers

    The table of the database record is called [orders] already; the
    helper object goes by the name the admin pages import it under,
    [orders as ordersApi]. *)

Module ordersApi.

(** [orders.create] *)
Definition create (order : NewOrder) : Store (Response OrderRow) :=
  request (InsertOrder order) (Pg.insert_order order).


End ordersApi.

(** ** The client-side cart view ([CartContext.tsx]) *)

Module View.

(** [interface CartItem].  The TypeScript type says [product: Product];
    the value is [item.product!], which is [null] at run time when the
    join resolved no product, hence the [option]. *)
Record CartItem := mkCartItem {
  id : uuid;
  product_id : uuid;
  quantity : Z;
  product : option Product
}.

(** [interface CartState]. *)
Record CartState := mkCartState {
  items : list CartItem;
  total : number;
  itemCount : Z;
  loading : bool
}.

End View.

Import View.

Inductive Toast :=
| toast_success (message : string)
| toast_error (message : string).

(** What a [CartProvider] can observe and change: the service, its React
    state and the toasts shown. *)
Record World := mkWorld {
  backend : Backend;
  state : CartState;
  toasts : list Toast
}.

(** One step of the first [reduce] of [calculateTotals]:
    [sum + (item.product.price * item.quantity)].  Reading [.price] of a
    [null] product throws a [TypeError], rendered as [None]. *)
Definition total_step (sum : option number) (item : CartItem) : option number :=
  match sum, product item with
  | Some s, Some p =>
      Some (PrimFloat.add s (PrimFloat.mul (p_price p) (number_of_Z (quantity item))))
  | _, _ => None
  end.

(** [calculateTotals]: both reductions run left to right from [0]; the
    function returns only if the first one did not throw.  The item count
    adds integers, exactly as long as it stays below 2^53. *)
Definition calculateTotals (its : list CartItem) : option (number * Z) :=
  match fold_left total_step its (Some PrimFloat.zero) with
  | Some t => Some (t, fold_left (fun sum item => sum + quantity item) its 0)
  | None => None
  end.

Definition transform (item : CartRow * option Product) : CartItem :=
  mkCartItem (c_id (fst item)) (c_product_id (fst item)) (c_quantity (fst item))
             (snd item).

(** [setState(prev => ({ ...prev, loading }))] *)
Definition set_loading (l : bool) (s : CartState) : CartState :=
  mkCartState (items s) (total s) (itemCount s) l.

(** The rest of the [try] block of [refreshCart] once [cart.getItems] has
    answered [cartItems], and its [catch]: every answered row becomes an
    item; the state is replaced when the totals could be computed, and
    otherwise keeps its previous items.  [console.error] leaves no trace
    in the world. *)
Definition publishCart (cartItems : list (CartRow * option Product)) (b : Backend)
  (w : World) : World :=
  let prev := set_loading true (state w) in
  let transformedItems := map transform cartItems in
  match calculateTotals transformedItems with
  | Some (t, n) =>
      mkWorld b (mkCartState transformedItems t n false) (toasts w)
  | None =>
      mkWorld b (set_loading false prev)
              (toasts w ++ [toast_error "Failed to load cart"])
  end.

(** [refreshCart].  [user] is the value [useAuth()] gave the provider.
    [cart.getItems] never throws; the [catch] branch is reached only by the
    [TypeError] of [calculateTotals]. *)
Definition refreshCart (user : option uuid) (w : World) : World :=
  match user with
  | None =>
      mkWorld (backend w)
              (mkCartState [] PrimFloat.zero 0 (loading (state w)))
              (toasts w)
  | Some u =>
      let (cartItems, b) := cart.getItems u (backend w) in
      publishCart cartItems b w
  end.

(** [removeFromCart]: the helper resolves whatever the service answered,
    so the refresh and the success toast always follow. *)
Definition removeFromCart (user : option uuid) (itemId : uuid) (w : World) : World :=
  match user with
  | None => w
  | Some _ =>
      let (_, b) := cart.removeItem itemId (backend w) in
      let w' := refreshCart user (mkWorld b (state w) (toasts w)) in
      mkWorld (backend w') (state w')
              (toasts w' ++ [toast_success "Item removed from cart"])
  end.

(** [updateQuantity] of the provider. *)
Definition updateQuantity (user : option uuid) (itemId : uuid) (quantity : Z)
  (w : World) : World :=
  match user with
  | None => w
  | Some _ =>
      let (_, b) := cart.updateQuantity itemId quantity (backend w) in
      refreshCart user (mkWorld b (state w) (toasts w))
  end.

(** [clearCart] of the provider. *)
Definition clearCart (user : option uuid) (w : World) : World :=
  match user with
  | None => w
  | Some u =>
      let (_, b) := cart.clearCart u (backend w) in
      let w' := refreshCart user (mkWorld b (state w) (toasts w)) in
      mkWorld (backend w') (state w') (toasts w' ++ [toast_success "Cart cleared"])
  end.

(** ** Reference notions the properties are stated with *)

Definition resolved (it : CartItem) : Prop := product it <> None.

Definition line_active (it : CartItem) : bool :=
  match product it with
  | Some p => p_is_active p
  | None => false
  end.

(** [price(product) × quantity] of one line. *)
Definition amount (it : CartItem) : number :=
  match product it with
  | Some p => PrimFloat.mul (p_price p) (number_of_Z (quantity it))
  | None => PrimFloat.zero
  end.

(** The sum of the amounts of [its], added in list order from [0]. *)
Definition sum_amounts (its : list CartItem) : number :=
  fold_left (fun s it => PrimFloat.add s (amount it)) its PrimFloat.zero.

(** The total in the words of the specification: the amounts of the lines
    whose product is active. *)
Definition active_total (its : list CartItem) : number :=
  sum_amounts (filter line_active its).

Fixpoint sum_quantities (its : list CartItem) : Z :=
  match its with
  | [] => 0
  | it :: rest => quantity it + sum_quantities rest
  end.

(** The same line with the active flag of its product replaced. *)
Definition with_active (a : bool) (it : CartItem) : CartItem :=
  mkCartItem (id it) (product_id it) (quantity it)
    (match product it with
     | Some p => Some (mkProduct (p_id p) (p_name p) (p_price p) (p_stock p) a)
     | None => None
     end).

(** The constraints of [cart_items] as a predicate on the table: the
    primary key, the keys drawn so far, UNIQUE(user_id, product_id) and
    CHECK (quantity > 0). *)
Definition line_key (r : CartRow) : uuid * uuid := (c_user_id r, c_product_id r).

Record cart_constraints (d : Database) : Prop := mkCartConstraints {
  cart_pkey : NoDup (map c_id (cart_items d));
  cart_ids_drawn : Forall (fun r => (c_id r < next_uuid d)%nat) (cart_items d);
  cart_unique : NoDup (map line_key (cart_items d));
  cart_check : Forall (fun r => 0 < c_quantity r) (cart_items d)
}.

(** The cart lines of one (user, product) pair. *)
Definition lines_of (u p : uuid) (d : Database) : list CartRow :=
  filter (Pg.same_line u p) (cart_items d).

(** The quantity a pair holds in the cart: [0] when it has no line. *)
Definition quantity_of (u p : uuid) (d : Database) : Z :=
  fold_right (fun r s => c_quantity r + s) 0 (lines_of u p d).

Definition has_profile (u : uuid) (d : Database) : bool :=
  existsb (fun pr => Nat.eqb (pr_id pr) u) (profiles d).

Definition has_product (p : uuid) (d : Database) : bool :=
  existsb (fun pd => Nat.eqb (p_id pd) p) (products d).

Definition is_some {A} (o : option A) : bool :=
  match o with Some _ => true | None => false end.


(** The largest value of an [integer] column. *)
Definition max_int4 : Z := 2147483647.



(** ** Checkout *)

(** The error taxonomy of the specification (section 7). *)
Inductive EngineError :=
| Unauthenticated
| CartOperationFailed
| EmptyCart
| InvalidTransition
| ValidationError.

(** The snapshot record [{product_id, title, unit_price, quantity}] of one
    line, taken from the product the view holds for it. *)
Definition snapshot (it : CartItem) : OrderLine :=
  match product it with
  | Some p => mkOrderLine (product_id it) (p_name p) (p_price p) (quantity it)
  | None => mkOrderLine (product_id it) "" PrimFloat.zero (quantity it)
  end.

(** Modelled from the spec: [createOrder(user, shippingAddress)], the
    checkout routine of [pages/Checkout], a page [App.tsx] imports and the
    sources do not contain.  Section 4.2: the user must be authenticated
    and the shipping address present; the routine reads the current view
    (no fresh fetch), keeps the lines whose product is active, rejects
    with [EmptyCart] when none remains, recomputes the total from the kept
    lines, persists one order through [orders.create] with status
    [pending] and a snapshot of the kept lines, and on success clears the
    cart and refreshes the view; an order that could not be persisted is
    reported as a failed store operation. *)
Definition createOrder (user : option uuid) (shippingAddress : string) (w : World)
  : (EngineError + OrderRow) * World :=
  match user with
  | None => (inl Unauthenticated, w)
  | Some u =>
      if String.eqb shippingAddress "" then (inl ValidationError, w)
      else
        match filter line_active (items (state w)) with
        | [] => (inl EmptyCart, w)
        | kept =>
            let (r, b) :=
              ordersApi.create
                (mkNewOrder u (map snapshot kept) (sum_amounts kept) pending
                            shippingAddress)
                (backend w) in
            match error r, data r with
            | None, Some row =>
                (inr row, clearCart user (mkWorld b (state w) (toasts w)))
            | _, _ => (inl CartOperationFailed, mkWorld b (state w) (toasts w))
            end
        end
  end.

(** ** Sample data *)

Module Sample.

Definition prodA : Product := mkProduct 1 "A" 249%float 10 true.
Definition prodB : Product := mkProduct 2 "B" 45%float 10 true.
Definition prodC : Product := mkProduct 3 "C" 12.5%float 10 true.
Definition retiredA : Product := mkProduct 1 "A" 249%float 10 false.

Definition shopper : uuid := 7.
Definition staff : uuid := 9.

Definition people : list Profile :=
  [mkProfile shopper false "user"; mkProfile staff true "admin"].

(** The cart of the specification's example: two of A, one of B. *)
Definition lines : list CartRow :=
  [mkCartRow 20 shopper 1 2; mkCartRow 21 shopper 2 1].

Definition shop : Database := mkDatabase people [prodA; prodB; prodC] lines [] 30.

(** The same shop after A was withdrawn from sale. *)
Definition shop_retired : Database :=
  mkDatabase people [retiredA; prodB] lines [] 30.

(** A shop whose only cart line is for the withdrawn product, with one
    cancelled order on file. *)
Definition cancelled_order : OrderRow :=
  mkOrderRow 25 shopper [mkOrderLine 2 "B" 45%float 1] 45%float cancelled "12 Long St".

Definition shop_unavailable : Database :=
  mkDatabase people [retiredA; prodB] [mkCartRow 20 shopper 1 2] [cancelled_order] 30.



(** A browser that is not signed in. *)
Definition visitor (d : Database) (sc : list Ambient) : Backend :=
  mkBackend d None sc [].

Definition session (d : Database) (who : uuid) (sc : list Ambient) : Backend :=
  mkBackend d (Some who) sc [].

Definition view : CartState :=
  mkCartState [mkCartItem 20 1 2 (Some prodA); mkCartItem 21 2 1 (Some prodB)]
              543%float 3 false.

Definition blank : CartState := mkCartState [] PrimFloat.zero 0 false.

End Sample.

(** ** More of [CartContext.tsx] and its callers *)

(** [addToCart].  The toast reads [product.title], a field the [Product]
    interface of [supabaseClient.ts] does not declare: what it renders to
    is the parameter [title].  As in [removeFromCart], neither awaited
    call throws, so the success toast always follows. *)
Definition addToCart (title : Product -> string) (user : option uuid)
  (product : Product) (quantity : Z) (w : World) : World :=
  match user with
  | None =>
      mkWorld (backend w) (state w)
              (toasts w ++ [toast_error "Please log in to add items to cart"])
  | Some u =>
      let (_, b) := cart.addItem u (p_id product) quantity (backend w) in
      let w' := refreshCart user (mkWorld b (state w) (toasts w)) in
      mkWorld (backend w') (state w')
              (toasts w' ++ [toast_success (title product ++ " added to cart")])
  end.

(** The state [useState<CartState>] starts the provider with. *)
Definition initial_state : CartState := mkCartState [] PrimFloat.zero 0 false.

(** [ProductDetail.tsx]: [product?.stock || 1]. *)
Definition stock_or_one (product : option Product) : Z :=
  match product with
  | Some p => if p_stock p =? 0 then 1 else p_stock p
  | None => 1
  end.

(** [adjustQuantity]:
    [Math.max(1, Math.min(product?.stock || 1, quantity + delta))]. *)
Definition adjustQuantity (product : option Product) (quantity delta : Z) : Z :=
  Z.max 1 (Z.min (stock_or_one product) (quantity + delta)).

(** The quantity of the page after a run of clicks on its two buttons,
    from the [useState(1)] it starts with. *)
Definition quantity_after (product : option Product) (deltas : list Z) : Z :=
  fold_left (adjustQuantity product) deltas 1.

(** [handleAddToCart] of the product page. *)
Definition handleAddToCart (title : Product -> string) (user : option uuid)
  (product : option Product) (quantity : Z) (w : World) : World :=
  match product with
  | Some p => addToCart title user p quantity w
  | None => w
  end.

(** The totals of a view agree with its items. *)
Definition view_consistent (s : CartState) : Prop :=
  calculateTotals (items s) = Some (total s, itemCount s).

(** ** The other tables of the schema and the rest of [supabaseClient.ts] *)

(** [wishlists]. *)
Record WishlistRow := mkWishlistRow {
  wl_id : uuid;
  wl_user_id : uuid;
  wl_product_id : uuid
}.

(** [payment_methods]: the columns the helpers read or write. *)
Record PaymentMethod := mkPaymentMethod {
  pm_id : uuid;
  pm_user_id : uuid;
  pm_provider : string;
  pm_provider_pm_id : string;
  pm_is_default : bool
}.

(** [Omit<PaymentMethod, 'id' | 'user_id' | 'created_at'>], the argument
    of [paymentMethods.add]. *)
Record NewPaymentMethod := mkNewPaymentMethod {
  np_provider : string;
  np_provider_pm_id : string;
  np_is_default : bool
}.

(** All the tables one statement can reach. *)
Record Tables := mkTables {
  t_main : Database;
  t_wishlists : list WishlistRow;
  t_payment_methods : list PaymentMethod
}.

(** The requests of the helpers outside the cart engine. *)
Inductive Query :=
| GetUser
| SelectActiveProducts
| SelectAllProducts
| SelectProduct (product_id : uuid)
| DeleteProduct (product_id : uuid)
| SelectOrdersOf (user_id : uuid)
| SelectAllOrders
| SelectProfile (user_id : uuid)
| InsertWishlist (user_id product_id : uuid)
| DeleteWishlist (user_id product_id : uuid)
| SelectWishlist (user_id : uuid)
| SelectWishlistEntry (user_id product_id : uuid)
| SelectPaymentMethods (user_id : uuid)
| InsertPaymentMethod (user_id : uuid) (method : NewPaymentMethod)
| DeletePaymentMethod (method_id : uuid)
| ClearDefaults (user_id : uuid)
| SetDefault (method_id user_id : uuid).

(** The service as a whole: the cart engine's backend, the two further
    tables and the requests issued against them.  One script drives
    both. *)
Record Site := mkSite {
  core : Backend;
  wishlists : list WishlistRow;
  payment_methods : list PaymentMethod;
  queries : list Query
}.

(** One awaited request of a helper outside the cart engine, with the
    same treatment of the script as [request]. *)
Definition ask {A} (q : Query)
  (run : option uuid -> Tables -> Response A * Tables) (s : Site) : Response A * Site :=
  let b := core s in
  let a := hd Quiet (script b) in
  let log := queries s ++ [q] in
  match a with
  | Outage =>
      (failed FetchFailed,
       mkSite (mkBackend (db b) (auth_uid b) (tl (script b)) (journal b))
              (wishlists s) (payment_methods s) log)
  | _ =>
      let (r, t) := run (auth_uid b)
                        (mkTables (rival a (db b)) (wishlists s) (payment_methods s)) in
      (r, mkSite (mkBackend (t_main t) (auth_uid b) (tl (script b)) (journal b))
                 (t_wishlists t) (t_payment_methods t) log)
  end.


Module PgSite.

(** Tables list their rows in creation order; [order('created_at',
    { ascending: false })] is the reversed list. *)
Definition newest_first {A} (rows : list A) : list A := rev rows.

(** The tables that carry a policy with the administrator test
    ([products], [orders], [profiles]) refuse every statement of the
    [authenticated] role. *)
Definition refused {A} (t : Tables) : Response A * Tables :=
  (failed PolicyRecursion, t).

(** "Anyone can view active products", the one policy of [products] open
    to the anonymous role. *)
Definition anyone_can_view (p : Product) : bool := p_is_active p.

(** [from('products').select('*').eq('is_active', true).order(...)] *)
Definition select_active_products (uid : option uuid) (t : Tables)
  : Response (list Product) * Tables :=
  if Pg.authenticated uid then refused t
  else (ok (newest_first
              (filter (fun p => p_is_active p && anyone_can_view p)
                      (products (t_main t)))),
        t).

(** [from('products').select('*').order(...)] *)
Definition select_all_products (uid : option uuid) (t : Tables)
  : Response (list Product) * Tables :=
  if Pg.authenticated uid then refused t
  else (ok (newest_first (filter anyone_can_view (products (t_main t)))), t).

(** [select('*').eq('id', id).eq('is_active', true).single()] *)
Definition select_product (i : uuid) (uid : option uuid) (t : Tables)
  : Response Product * Tables :=
  if Pg.authenticated uid then refused t
  else
    match filter (fun p => Nat.eqb (p_id p) i && p_is_active p && anyone_can_view p)
                 (products (t_main t)) with
    | [p] => (ok p, t)
    | _ => (failed NotSingleRow, t)
    end.



(** [from('orders').select('*').order(...)] *)
Definition select_all_orders (uid : option uuid) (t : Tables)
  : Response (list OrderRow) * Tables :=
  if Pg.authenticated uid then refused t else (ok [], t).


(** "Users can manage own wishlist": [user_id = auth.uid()]. *)
Definition owns_wish (uid : option uuid) (r : WishlistRow) : bool :=
  match uid with
  | Some a => Nat.eqb (wl_user_id r) a
  | None => false
  end.

Definition same_wish (u p : uuid) (r : WishlistRow) : bool :=
  Nat.eqb (wl_user_id r) u && Nat.eqb (wl_product_id r) p.

(** [from('wishlists').insert({ user_id, product_id }).select().single()]:
    the policy's check, UNIQUE(user_id, product_id), the two foreign
    keys. *)
Definition insert_wishlist (u p : uuid) (uid : option uuid) (t : Tables)
  : Response WishlistRow * Tables :=
  let d := t_main t in
  let r := mkWishlistRow (next_uuid d) u p in
  if negb (owns_wish uid r) then (failed PolicyViolation, t)
  else if existsb (same_wish u p) (t_wishlists t) then (failed UniqueViolation, t)
  else if negb (existsb (fun pr => Nat.eqb (pr_id pr) u) (profiles d)
                && existsb (fun pd => Nat.eqb (p_id pd) p) (products d))
       then (failed ForeignKeyViolation, t)
  else (ok r,
        mkTables (mkDatabase (profiles d) (products d) (cart_items d) (orders d)
                             (S (next_uuid d)))
                 (t_wishlists t ++ [r]) (t_payment_methods t)).

(** [from('wishlists').delete().match({ user_id, product_id })] *)
Definition delete_wishlist (u p : uuid) (uid : option uuid) (t : Tables)
  : Response WishlistRow * Tables :=
  (done,
   mkTables (t_main t)
            (filter (fun r => negb (same_wish u p r && owns_wish uid r)) (t_wishlists t))
            (t_payment_methods t)).

(** [from('wishlists').select('*, products( * )').eq('user_id', u)]: the
    embedded [products] puts the statement under the policies of
    [products]; the anonymous role has no policy on [wishlists]. *)
Definition select_wishlist (u : uuid) (uid : option uuid) (t : Tables)
  : Response (list (WishlistRow * option Product)) * Tables :=
  if Pg.authenticated uid then refused t else (ok [], t).

(** [select('id').eq('user_id', u).eq('product_id', p).single()] *)
Definition select_wishlist_entry (u p : uuid) (uid : option uuid) (t : Tables)
  : Response WishlistRow * Tables :=
  match filter (fun r => same_wish u p r && owns_wish uid r) (t_wishlists t) with
  | [r] => (ok r, t)
  | _ => (failed NotSingleRow, t)
  end.

(** "Users can manage own payment methods": [user_id = auth.uid()]. *)
Definition owns_method (uid : option uuid) (m : PaymentMethod) : bool :=
  match uid with
  | Some a => Nat.eqb (pm_user_id m) a
  | None => false
  end.

Definition set_default_flag (f : bool) (m : PaymentMethod) : PaymentMethod :=
  mkPaymentMethod (pm_id m) (pm_user_id m) (pm_provider m) (pm_provider_pm_id m) f.

(** [from('payment_methods').select('*').eq('user_id', u).order(...)] *)
Definition select_payment_methods (u : uuid) (uid : option uuid) (t : Tables)
  : Response (list PaymentMethod) * Tables :=
  (ok (newest_first
         (filter (fun m => Nat.eqb (pm_user_id m) u && owns_method uid m)
                 (t_payment_methods t))),
   t).

(** [insert([{ user_id: userId, ...method }]).select().single()]: the
    policy's check and the key to [profiles]. *)
Definition insert_payment_method (u : uuid) (n : NewPaymentMethod)
  (uid : option uuid) (t : Tables) : Response PaymentMethod * Tables :=
  let d := t_main t in
  let m := mkPaymentMethod (next_uuid d) u (np_provider n) (np_provider_pm_id n)
                           (np_is_default n) in
  if negb (owns_method uid m) then (failed PolicyViolation, t)
  else if negb (existsb (fun pr => Nat.eqb (pr_id pr) u) (profiles d))
       then (failed ForeignKeyViolation, t)
  else (ok m,
        mkTables (mkDatabase (profiles d) (products d) (cart_items d) (orders d)
                             (S (next_uuid d)))
                 (t_wishlists t) (t_payment_methods t ++ [m])).

(** [from('payment_methods').delete().eq('id', i)] *)
Definition delete_payment_method (i : uuid) (uid : option uuid) (t : Tables)
  : Response PaymentMethod * Tables :=
  (done,
   mkTables (t_main t) (t_wishlists t)
            (filter (fun m => negb (Nat.eqb (pm_id m) i && owns_method uid m))
                    (t_payment_methods t))).

(** [update({ is_default: false }).eq('user_id', u)] *)
Definition clear_defaults (u : uuid) (uid : option uuid) (t : Tables)
  : Response PaymentMethod * Tables :=
  (done,
   mkTables (t_main t) (t_wishlists t)
            (map (fun m => if Nat.eqb (pm_user_id m) u && owns_method uid m
                           then set_default_flag false m else m)
                 (t_payment_methods t))).

(** [update({ is_default: true }).eq('id', i).eq('user_id', u)] *)
Definition set_default (i u : uuid) (uid : option uuid) (t : Tables)
  : Response PaymentMethod * Tables :=
  (done,
   mkTables (t_main t) (t_wishlists t)
            (map (fun m => if Nat.eqb (pm_id m) i && Nat.eqb (pm_user_id m) u
                              && owns_method uid m
                           then set_default_flag true m else m)
                 (t_payment_methods t))).

End PgSite.

(** [data || []] after the [if (error) return []] of the list helpers. *)
Definition rows_or_empty {A} (r : Response (list A)) : list A :=
  match error r with
  | Some _ => []
  | None => match data r with Some rows => rows | None => [] end
  end.

(** [if (error) return null; return data] *)
Definition row_or_null {A} (r : Response A) : option A :=
  match error r with
  | Some _ => None
  | None => data r
  end.

Module products.

(** [products.getAll] *)
Definition getAll (s : Site) : list Product * Site :=
  let (r, s') := ask SelectActiveProducts PgSite.select_active_products s in
  (rows_or_empty r, s').

(** [products.getAllForAdmin] *)
Definition getAllForAdmin (s : Site) : list Product * Site :=
  let (r, s') := ask SelectAllProducts PgSite.select_all_products s in
  (rows_or_empty r, s').

(** [products.getById] *)
Definition getById (i : uuid) (s : Site) : option Product * Site :=
  let (r, s') := ask (SelectProduct i) (PgSite.select_product i) s in
  (row_or_null r, s').


End products.

Module orders.


(** [orders.getAll] *)
Definition getAll (s : Site) : list OrderRow * Site :=
  let (r, s') := ask SelectAllOrders PgSite.select_all_orders s in
  (rows_or_empty r, s').

End orders.

Module wishlist.

(** [wishlist.add] *)
Definition add (userId productId : uuid) (s : Site) : Response WishlistRow * Site :=
  ask (InsertWishlist userId productId) (PgSite.insert_wishlist userId productId) s.

(** [wishlist.remove] *)
Definition remove (userId productId : uuid) (s : Site) : Response WishlistRow * Site :=
  ask (DeleteWishlist userId productId) (PgSite.delete_wishlist userId productId) s.

(** [wishlist.getItems] *)
Definition getItems (userId : uuid) (s : Site)
  : list (WishlistRow * option Product) * Site :=
  let (r, s') := ask (SelectWishlist userId) (PgSite.select_wishlist userId) s in
  (rows_or_empty r, s').

(** [wishlist.isInWishlist]: [!error && !!data]. *)
Definition isInWishlist (userId productId : uuid) (s : Site) : bool * Site :=
  let (r, s') := ask (SelectWishlistEntry userId productId)
                     (PgSite.select_wishlist_entry userId productId) s in
  (match error r with
   | Some _ => false
   | None => is_some (data r)
   end, s').

End wishlist.

Module paymentMethods.

(** [paymentMethods.getAll] *)
Definition getAll (userId : uuid) (s : Site) : list PaymentMethod * Site :=
  let (r, s') := ask (SelectPaymentMethods userId)
                     (PgSite.select_payment_methods userId) s in
  (rows_or_empty r, s').

(** [paymentMethods.add] *)
Definition add (userId : uuid) (method : NewPaymentMethod) (s : Site)
  : Response PaymentMethod * Site :=
  ask (InsertPaymentMethod userId method) (PgSite.insert_payment_method userId method) s.

(** [paymentMethods.remove] *)
Definition remove (methodId : uuid) (s : Site) : Response PaymentMethod * Site :=
  ask (DeletePaymentMethod methodId) (PgSite.delete_payment_method methodId) s.

(** [paymentMethods.setDefault]: the first answer is dropped, the second
    is returned. *)
Definition setDefault (userId methodId : uuid) (s : Site) : Response PaymentMethod * Site :=
  let (_, s1) := ask (ClearDefaults userId) (PgSite.clear_defaults userId) s in
  ask (SetDefault methodId userId) (PgSite.set_default methodId userId) s1.

End paymentMethods.

Module admin.




End admin.

(** ** [WishlistButton] *)

Record WishlistButton := mkWishlistButton {
  wb_isInWishlist : bool;
  wb_loading : bool;
  wb_toasts : list Toast
}.

(** [checkWishlistStatus], the effect run when the button mounts. *)
Definition checkWishlistStatus (user : option uuid) (productId : uuid)
  (sb : Site * WishlistButton) : Site * WishlistButton :=
  match user with
  | None => sb
  | Some u =>
      let (inWishlist, s') := wishlist.isInWishlist u productId (fst sb) in
      (s', mkWishlistButton inWishlist (wb_loading (snd sb)) (wb_toasts (snd sb)))
  end.

(** [handleWishlistToggle]: neither helper throws, so the flag is flipped
    and the success toast shown whatever the service answered. *)
Definition handleWishlistToggle (user : option uuid) (productId : uuid)
  (sb : Site * WishlistButton) : Site * WishlistButton :=
  let (s, b) := sb in
  match user with
  | None =>
      (s, mkWishlistButton (wb_isInWishlist b) (wb_loading b)
            (wb_toasts b ++ [toast_error "Please sign in to use the wishlist"]))
  | Some u =>
      if wb_isInWishlist b then
        let (_, s') := wishlist.remove u productId s in
        (s', mkWishlistButton false false
               (wb_toasts b ++ [toast_success "Removed from wishlist"]))
      else
        let (_, s') := wishlist.add u productId s in
        (s', mkWishlistButton true false
               (wb_toasts b ++ [toast_success "Added to wishlist"]))
  end.

(** ** The orders tab of [AdminPanel.tsx] *)






(** ** Reference notions for the further tables *)

Definition wish_key (r : WishlistRow) : uuid * uuid := (wl_user_id r, wl_product_id r).

(** ** Sample data for the further tables *)

Module Demo.

Definition wishes : list WishlistRow := [mkWishlistRow 22 Sample.shopper 2].

Definition methods : list PaymentMethod :=
  [mkPaymentMethod 23 Sample.shopper "stripe" "pm_1" true;
   mkPaymentMethod 24 Sample.shopper "mock" "pm_2" false;
   mkPaymentMethod 26 Sample.staff "stripe" "pm_3" true].

Definition site (d : Database) (who : uuid) (sc : list Ambient) : Site :=
  mkSite (Sample.session d who sc) wishes methods [].

(** The same service seen from a browser that is not signed in. *)
Definition open_site (d : Database) (sc : list Ambient) : Site :=
  mkSite (Sample.visitor d sc) wishes methods [].

End Demo.

(** * Properties *)

(** ** Lists of rows *)

Lemma filter_none {A} (f : A -> bool) (l : list A) :
  (forall y, In y l -> f y = false) -> filter f l = [].
Proof.
  induction l as [|x rest IH]; intros H; [reflexivity|].
  cbn [filter]. rewrite (H x (or_introl eq_refl)).
  apply IH. intros y Hy. apply H. now right.
Qed.

Lemma filter_all {A} (f : A -> bool) (l : list A) :
  (forall y, In y l -> f y = true) -> filter f l = l.
Proof.
  induction l as [|x rest IH]; intros H; [reflexivity|].
  cbn [filter]. rewrite (H x (or_introl eq_refl)). f_equal.
  apply IH. intros y Hy. apply H. now right.
Qed.

Lemma filter_twice {A} (f : A -> bool) (l : list A) :
  filter f (filter f l) = filter f l.
Proof.
  apply filter_all. intros y Hy. now apply filter_In in Hy.
Qed.

Lemma filter_map_stable {A} (f : A -> bool) (g : A -> A) (l : list A) :
  (forall x, f (g x) = f x) -> filter f (map g l) = map g (filter f l).
Proof.
  intros H. induction l as [|x rest IH]; [reflexivity|].
  cbn [map filter]. rewrite H. destruct (f x); cbn [map]; now rewrite IH.
Qed.

Lemma existsb_false_filter {A} (f : A -> bool) (l : list A) :
  existsb f l = false <-> filter f l = [].
Proof.
  induction l as [|x rest IH]; cbn [existsb filter]; [tauto|].
  destruct (f x); cbn [orb]; [split; discriminate | exact IH].
Qed.

Section Keyed.

Context {A K : Type}.
Variable key : A -> K.

(** A filter that pins the key selects at most one row of a keyed table. *)
Lemma filter_by_key (hit : A -> bool) (k : K) (rows : list A) (r : A) :
  (forall x, hit x = true -> key x = k) ->
  NoDup (map key rows) -> In r rows -> hit r = true ->
  filter hit rows = [r].
Proof.
  intros Hk. induction rows as [|x rest IH]; intros Hnd Hin Hr; [contradiction|].
  cbn [map] in Hnd. inversion Hnd as [|? ? Hx Hrest]; subst.
  cbn [filter]. destruct Hin as [->|Hin].
  - rewrite Hr. f_equal. apply filter_none. intros y Hy.
    destruct (hit y) eqn:Ey; [|reflexivity].
    exfalso. apply Hx. rewrite (Hk r Hr), <- (Hk y Ey). now apply in_map.
  - destruct (hit x) eqn:Ex.
    + exfalso. apply Hx. rewrite (Hk x Ex), <- (Hk r Hr). now apply in_map.
    + now apply IH.
Qed.

(** Hence such a filter returns nothing or one row of the table. *)
Lemma filter_by_key_cases (hit : A -> bool) (k : K) (rows : list A) :
  (forall x, hit x = true -> key x = k) ->
  NoDup (map key rows) ->
  filter hit rows = [] \/ exists r, In r rows /\ hit r = true /\ filter hit rows = [r].
Proof.
  intros Hk Hnd. destruct (filter hit rows) as [|r l] eqn:E; [now left|].
  right. assert (Hr : In r (filter hit rows)) by (rewrite E; now left).
  apply filter_In in Hr. destruct Hr as [Hin Hhit].
  exists r. repeat split; trivial.
  rewrite <- E. now apply (filter_by_key hit k).
Qed.

End Keyed.

(** ** Totals *)

Lemma fold_total_step_resolved (its : list CartItem) (s : number) :
  Forall resolved its ->
  fold_left total_step its (Some s)
  = Some (fold_left (fun s it => PrimFloat.add s (amount it)) its s).
Proof.
  intros H; revert s.
  induction H as [|it rest Hit _ IH]; intros s; [reflexivity|].
  cbn [fold_left].
  assert (E : total_step (Some s) it = Some (PrimFloat.add s (amount it))).
  { unfold resolved in Hit. unfold total_step, amount.
    destruct (product it); [reflexivity | congruence]. }
  rewrite E. apply IH.
Qed.

Lemma fold_quantities (its : list CartItem) (a : Z) :
  fold_left (fun sum item => sum + quantity item) its a = a + sum_quantities its.
Proof.
  revert a; induction its as [|it rest IH]; intros a; cbn [fold_left sum_quantities].
  - lia.
  - rewrite IH. lia.
Qed.

Lemma total_step_with_active (a : bool) (s : option number) (it : CartItem) :
  total_step s (with_active a it) = total_step s it.
Proof.
  unfold total_step, with_active; cbn.
  destruct s, (product it); reflexivity.
Qed.

Lemma fold_total_step_with_active (f : CartItem -> bool) (its : list CartItem)
  (s : option number) :
  fold_left total_step (map (fun it => with_active (f it) it) its) s
  = fold_left total_step its s.
Proof.
  revert s; induction its as [|it rest IH]; intros s; [reflexivity|].
  cbn [map fold_left]. rewrite total_step_with_active. apply IH.
Qed.

Lemma fold_quantities_with_active (f : CartItem -> bool) (its : list CartItem) (a : Z) :
  fold_left (fun sum item => sum + quantity item)
            (map (fun it => with_active (f it) it) its) a
  = fold_left (fun sum item => sum + quantity item) its a.
Proof.
  revert a; induction its as [|it rest IH]; intros a; [reflexivity|].
  cbn [map fold_left]. rewrite IH. reflexivity.
Qed.

Lemma calculateTotals_with_active (f : CartItem -> bool) (its : list CartItem) :
  calculateTotals (map (fun it => with_active (f it) it) its) = calculateTotals its.
Proof.
  unfold calculateTotals.
  rewrite fold_total_step_with_active, fold_quantities_with_active. reflexivity.
Qed.

Lemma calculateTotals_resolved (its : list CartItem) :
  Forall resolved its ->
  calculateTotals its = Some (sum_amounts its, sum_quantities its).
Proof.
  intros H. unfold calculateTotals, sum_amounts.
  rewrite (fold_total_step_resolved its _ H), fold_quantities. reflexivity.
Qed.

(** C2, as the code has it: for a cart view whose lines all carry a
    product, [total] is the sum of price × quantity over every line and
    [itemCount] the sum of the quantities over every line; neither looks
    at [is_active], so changing the flags of the products changes
    nothing. *)
Theorem calculateTotals_every_line (its : list CartItem) :
  Forall resolved its ->
  calculateTotals its = Some (sum_amounts its, sum_quantities its)
  /\ forall f : CartItem -> bool,
       calculateTotals (map (fun it => with_active (f it) it) its)
       = Some (sum_amounts its, sum_quantities its).
Proof.
  intros H.
  pose proof (calculateTotals_resolved its H) as E.
  split; [exact E|].
  intros f. rewrite calculateTotals_with_active. exact E.
Qed.

Lemma calculateTotals_every_line_witness :
  calculateTotals (items Sample.view) = Some (543%float, 3)
  /\ calculateTotals (map (with_active false) (items Sample.view)) = Some (543%float, 3).
Proof.
  assert (H : Forall resolved (items Sample.view)).
  { repeat constructor; discriminate. }
  destruct (calculateTotals_every_line (items Sample.view) H) as [E1 E2].
  split; [exact E1 | exact (E2 (fun _ => false))].
Defined.

(** C2 as written fails: with A withdrawn from sale (a view an
    administrator's session obtains), the total still counts A's two
    units. *)
Lemma total_counts_inactive_lines :
  ~ (forall its t n,
       calculateTotals its = Some (t, n) ->
       t = active_total its /\ n = sum_quantities its).
Proof.
  intros H.
  destruct (H [mkCartItem 20 1 2 (Some Sample.retiredA);
               mkCartItem 21 2 1 (Some Sample.prodB)]
              543%float 3 eq_refl) as [Ht _].
  apply (f_equal (fun x => PrimFloat.ltb x 100%float)) in Ht.
  vm_compute in Ht. discriminate.
Qed.

(** ** Operations without a user *)

(** C10: without an authenticated user, [removeFromCart], [updateQuantity]
    and [clearCart] return with the world as they found it: no request is
    journalled, the cart state and the toasts are untouched. *)
Theorem signed_out_mutations_are_noops (w : World) (itemId : uuid) (q : Z) :
  removeFromCart None itemId w = w
  /\ updateQuantity None itemId q w = w
  /\ clearCart None w = w.
Proof. repeat split. Qed.

(** ** A failing fetch *)

(** Whatever the view held, a fetch that meets a transport failure is
    answered with [[]] and published as an empty cart. *)
Lemma refreshCart_outage (w : World) (u : uuid) :
  hd Quiet (script (backend w)) = Outage ->
  state (refreshCart (Some u) w) = mkCartState [] PrimFloat.zero 0 false
  /\ toasts (refreshCart (Some u) w) = toasts w.
Proof.
  intros H. unfold refreshCart, cart.getItems, bind, request. rewrite H.
  cbn. split; reflexivity.
Qed.

(** C7 at a failing input: the view shows two lines, the fetch of
    [refreshCart] meets a transport failure, and the view comes out empty
    with no error reported. *)
Theorem refreshCart_outage_empties_view :
  let w := mkWorld (Sample.session Sample.shop Sample.shopper [Outage]) Sample.view [] in
  state (refreshCart (Some Sample.shopper) w) = Sample.blank
  /\ toasts (refreshCart (Some Sample.shopper) w) = []
  /\ db (backend (refreshCart (Some Sample.shopper) w)) = Sample.shop.
Proof. vm_compute. repeat split. Qed.


(** ** Removing a line *)

Lemma request_quiet {A} (rq : Request)
  (run : option uuid -> Database -> Response A * Database) (b : Backend) :
  script b = [] ->
  request rq run b
  = (fst (run (auth_uid b) (db b)),
     mkBackend (snd (run (auth_uid b) (db b))) (auth_uid b) [] (journal b ++ [rq])).
Proof.
  intros H. unfold request. rewrite H. cbn [hd tl rival].
  destruct (run (auth_uid b) (db b)); reflexivity.
Qed.

(** C9: [removeItem] answers without error whether or not the line is
    there; on a table that has no line with that id it changes nothing; a
    second call answers without error too and leaves the tables as the
    first call left them. *)
Theorem removeItem_idempotent (b : Backend) (itemId : uuid) :
  script b = [] ->
  let once := cart.removeItem itemId b in
  let twice := cart.removeItem itemId (snd once) in
  error (fst once) = None
  /\ error (fst twice) = None
  /\ db (snd twice) = db (snd once)
  /\ (~ In itemId (map c_id (cart_items (db b))) -> db (snd once) = db b).
Proof.
  intros Hq. cbv zeta. unfold cart.removeItem.
  rewrite (request_quiet _ _ b Hq). cbn [fst snd].
  rewrite request_quiet by reflexivity. cbn [fst snd db auth_uid].
  unfold Pg.delete_cart_item; cbn [fst snd].
  repeat split.
  - unfold Pg.set_cart_items; cbn [cart_items profiles products orders next_uuid].
    now rewrite filter_twice.
  - intros Habsent. destruct (db b) as [pf pd rows os n].
    unfold Pg.set_cart_items; cbn [cart_items profiles products orders next_uuid] in *.
    f_equal. apply filter_all. intros r Hr.
    destruct (Nat.eqb_spec (c_id r) itemId) as [E|]; [|reflexivity].
    exfalso. apply Habsent. rewrite <- E. now apply in_map.
Qed.

Lemma removeItem_idempotent_witness :
  let b := Sample.session Sample.shop Sample.shopper [] in
  error (fst (cart.removeItem 20 b)) = None
  /\ error (fst (cart.removeItem 20 (snd (cart.removeItem 20 b)))) = None
  /\ db (snd (cart.removeItem 20 (snd (cart.removeItem 20 b))))
     = db (snd (cart.removeItem 20 b))
  /\ (~ In 20%nat (map c_id (cart_items (db b))) -> db (snd (cart.removeItem 20 b)) = db b).
Proof.
  exact (removeItem_idempotent (Sample.session Sample.shop Sample.shopper []) 20 eq_refl).
Defined.

(** ** What a fetch of the cart answers *)

(** Refused for a signed-in session, empty for any other and when the
    transport fails: [cart.getItems] never answers a line. *)
Lemma getItems_answers_no_line (u : uuid) (b : Backend) :
  fst (cart.getItems u b) = [].
Proof.
  unfold cart.getItems, bind, request, Pg.select_cart_items.
  destruct (hd Quiet (script b)); cbn; trivial;
    destruct (Pg.authenticated (auth_uid b)); reflexivity.
Qed.

Lemma getItems_quiet_run (u : uuid) (b : Backend) :
  script b = [] ->
  cart.getItems u b
  = ([], mkBackend (db b) (auth_uid b) [] (journal b ++ [SelectCartItems u])).
Proof.
  intros Hq. unfold cart.getItems, bind.
  rewrite (request_quiet _ _ b Hq). unfold Pg.select_cart_items.
  destruct (Pg.authenticated (auth_uid b)); reflexivity.
Qed.

(** Hence a signed-in provider always publishes the empty cart. *)
Lemma refreshCart_signed_in_run (u : uuid) (w : World) :
  refreshCart (Some u) w
  = mkWorld (snd (cart.getItems u (backend w)))
            (mkCartState [] PrimFloat.zero 0 false) (toasts w).
Proof.
  unfold refreshCart. pose proof (getItems_answers_no_line u (backend w)) as E.
  destruct (cart.getItems u (backend w)) as [rows b]. cbn [fst] in E. subst rows.
  reflexivity.
Qed.

Lemma getItems_outage (u : uuid) (b : Backend) (rest : list Ambient) :
  script b = Outage :: rest ->
  cart.getItems u b
  = ([], mkBackend (db b) (auth_uid b) rest (journal b ++ [SelectCartItems u])).
Proof.
  intros Hs. unfold cart.getItems, bind, request. rewrite Hs. reflexivity.
Qed.

(** ** Changing a quantity *)

Lemma row_of_key {A} (key : A -> uuid) (rows : list A) (r x : A) :
  NoDup (map key rows) -> In r rows -> In x rows -> key x = key r -> x = r.
Proof.
  intros Hnd Hr Hx E.
  assert (F : filter (fun y => Nat.eqb (key y) (key r)) rows = [r]).
  { apply (filter_by_key key _ (key r)); trivial.
    - intros y Hy. now apply Nat.eqb_eq.
    - apply Nat.eqb_refl. }
  assert (Hin : In x (filter (fun y => Nat.eqb (key y) (key r)) rows)).
  { apply filter_In. split; [exact Hx | now apply Nat.eqb_eq]. }
  rewrite F in Hin. destruct Hin as [->|[]]. reflexivity.
Qed.

Lemma int4_in_range (q : Z) : 0 < q -> q <= 2147483647 -> Pg.int4 q = true.
Proof. intros H1 H2. unfold Pg.int4. apply andb_true_intro. split; lia. Qed.

(** What a successful [update ... eq('id', i)] does to a keyed table. *)
Lemma update_quantity_hit (d : Database) (uid : option uuid) (r : CartRow) (q : Z) :
  NoDup (map c_id (cart_items d)) -> In r (cart_items d) ->
  Pg.owns uid r = true -> 0 < q -> q <= 2147483647 ->
  Pg.update_quantity (c_id r) q uid d
  = (ok (Pg.set_quantity q r),
     Pg.set_cart_items
       (map (fun x => if Nat.eqb (c_id x) (c_id r) then Pg.set_quantity q x else x)
            (cart_items d)) d).
Proof.
  intros Hnd Hr Ho Hq Hmax. unfold Pg.update_quantity.
  rewrite (int4_in_range q Hq Hmax). cbn [negb].
  rewrite (filter_by_key c_id _ (c_id r) (cart_items d) r); trivial.
  - destruct (Z.leb_spec q 0) as [Hle|_]; [lia|].
    do 2 f_equal. apply map_ext_in. intros x Hx.
    destruct (Nat.eqb_spec (c_id x) (c_id r)) as [E|]; [|reflexivity].
    rewrite (row_of_key c_id _ r x Hnd Hr Hx E), Ho. reflexivity.
  - intros x Hx. apply andb_prop in Hx. now apply Nat.eqb_eq.
  - now rewrite Nat.eqb_refl, Ho.
Qed.

(** C8, as the code has it: with a quantity of zero or less
    [updateQuantity] is [removeItem]: on a quiet service no line of the
    caller with that id is left in the table, no fetch answers the line,
    and the view a signed-in provider publishes does not hold it.  With a
    quantity from one to 2147483647, the range of the column, the line's
    quantity becomes that quantity, whatever it was, and no other row
    changes. *)
Theorem updateQuantity_remove_or_replace (b : Backend) (itemId : uuid) (q : Z) :
  (q <= 0 ->
     cart.updateQuantity itemId q b = cart.removeItem itemId b
     /\ (script b = [] ->
         forall r, In r (cart_items (db (snd (cart.updateQuantity itemId q b)))) ->
                   c_id r = itemId -> Pg.owns (auth_uid b) r = false)
     /\ (forall u, ~ In itemId
                       (map (fun x => c_id (fst x))
                            (fst (cart.getItems u (snd (cart.updateQuantity itemId q b))))))
     /\ (forall u w, ~ In itemId
                         (map id (items (state (updateQuantity (Some u) itemId q w))))))
  /\ (1 <= q <= 2147483647 -> script b = [] -> NoDup (map c_id (cart_items (db b))) ->
      forall r, In r (cart_items (db b)) -> c_id r = itemId ->
                Pg.owns (auth_uid b) r = true ->
        fst (cart.updateQuantity itemId q b) = ok (Pg.set_quantity q r)
        /\ cart_items (db (snd (cart.updateQuantity itemId q b)))
           = map (fun x => if Nat.eqb (c_id x) itemId then Pg.set_quantity q x else x)
                 (cart_items (db b))).
Proof.
  split.
  - intros Hle. unfold cart.updateQuantity.
    destruct (Z.leb_spec q 0) as [_|Hlt]; [|lia].
    split; [reflexivity|]. split; [|split].
    + intros Hq r Hr Hid. unfold cart.removeItem in Hr.
      rewrite (request_quiet _ _ b Hq) in Hr.
      unfold Pg.delete_cart_item in Hr. cbn [snd db Pg.set_cart_items cart_items] in Hr.
      apply filter_In in Hr. destruct Hr as [_ Hkeep].
      rewrite Hid, Nat.eqb_refl in Hkeep. cbn [andb] in Hkeep.
      now apply negb_true_iff in Hkeep.
    + intros u. now rewrite getItems_answers_no_line.
    + intros u w. unfold updateQuantity.
      destruct (cart.updateQuantity itemId q (backend w)) as [r0 b0].
      now rewrite refreshCart_signed_in_run.
  - intros [Hge Hmax] Hq Hnd r Hr Hid Hown. subst itemId.
    unfold cart.updateQuantity.
    destruct (Z.leb_spec q 0) as [Hle|_]; [lia|].
    rewrite (request_quiet _ _ b Hq). cbn [fst snd db].
    rewrite (update_quantity_hit (db b) (auth_uid b) r q) by (trivial; lia).
    split; reflexivity.
Qed.

Lemma updateQuantity_remove_or_replace_witness :
  let b := Sample.session Sample.shop Sample.shopper [] in
  (cart.updateQuantity 20 (-5) b = cart.removeItem 20 b
   /\ cart_items (db (snd (cart.updateQuantity 20 (-5) b)))
      = [mkCartRow 21 Sample.shopper 2 1])
  /\ cart_items (db (snd (cart.updateQuantity 20 7 b)))
     = [mkCartRow 20 Sample.shopper 1 7; mkCartRow 21 Sample.shopper 2 1].
Proof.
  set (b := Sample.session Sample.shop Sample.shopper []).
  cbv zeta. split.
  - destruct (updateQuantity_remove_or_replace b 20 (-5)) as [Hrm _].
    destruct (Hrm ltac:(lia)) as [E _].
    split; [exact E | reflexivity].
  - destruct (updateQuantity_remove_or_replace b 20 7) as [_ Hset].
    assert (Hnd : NoDup (map c_id (cart_items (db b)))).
    { cbn. repeat constructor; cbn; intuition congruence. }
    destruct (Hset ltac:(lia) eq_refl Hnd (mkCartRow 20 Sample.shopper 1 2)
                   (or_introl eq_refl) eq_refl eq_refl) as [_ E].
    exact E.
Defined.

(** C8 as written fails: a quantity of 2147483648 is at least one, but
    the column cannot hold it; the update is refused and the line keeps
    its two units. *)
Lemma oversized_quantity_is_not_stored :
  let b := Sample.session Sample.shop Sample.shopper [] in
  1 <= 2147483648
  /\ fst (cart.updateQuantity 20 2147483648 b) = failed NumericOutOfRange
  /\ cart_items (db (snd (cart.updateQuantity 20 2147483648 b))) = Sample.lines.
Proof. cbv zeta. split; [lia|]. split; reflexivity. Qed.

(** ** Order status *)

Lemma insert_cart_item_elsewhere (u p : uuid) (q : Z) (uid : option uuid) (d : Database) :
  profiles (snd (Pg.insert_cart_item u p q uid d)) = profiles d
  /\ products (snd (Pg.insert_cart_item u p q uid d)) = products d
  /\ orders (snd (Pg.insert_cart_item u p q uid d)) = orders d.
Proof.
  unfold Pg.insert_cart_item.
  repeat match goal with |- context [if ?c then _ else _] => destruct c end;
    cbn; auto.
Qed.





(** ** Checkout *)

(** C6: [createOrder] for a signed-in user with a shipping address, on a
    view in which no line has an active product, fails with [EmptyCart];
    it issues no request, so no order is created and the cart lines, the
    view and the toasts are as they were. *)
Theorem createOrder_rejects_unavailable_cart
  (u : uuid) (shippingAddress : string) (w : World) :
  shippingAddress <> ""%string ->
  Forall (fun it => line_active it = false) (items (state w)) ->
  createOrder (Some u) shippingAddress w = (inl EmptyCart, w)
  /\ orders (db (backend (snd (createOrder (Some u) shippingAddress w))))
     = orders (db (backend w))
  /\ cart_items (db (backend (snd (createOrder (Some u) shippingAddress w))))
     = cart_items (db (backend w))
  /\ journal (backend (snd (createOrder (Some u) shippingAddress w)))
     = journal (backend w).
Proof.
  intros Ha Hall.
  assert (E : createOrder (Some u) shippingAddress w = (inl EmptyCart, w)).
  { unfold createOrder.
    destruct (String.eqb_spec shippingAddress ""%string) as [->|_]; [now elim Ha|].
    rewrite (filter_none line_active (items (state w))); [reflexivity|].
    now apply Forall_forall. }
  rewrite E. repeat split.
Qed.

Lemma createOrder_rejects_unavailable_cart_witness :
  let w := mkWorld (Sample.session Sample.shop_unavailable Sample.shopper [])
                   (mkCartState [mkCartItem 20 1 2 (Some Sample.retiredA)]
                                498%float 2 false) [] in
  createOrder (Some Sample.shopper) "12 Long St" w = (inl EmptyCart, w).
Proof.
  cbv zeta.
  apply (createOrder_rejects_unavailable_cart Sample.shopper "12 Long St").
  - discriminate.
  - repeat constructor.
Defined.

(** ** Adding a line while another session adds it too *)

(** C5, as the code has it: when the lookup of [addItem] found no line and
    the insert then meets a line for the pair, nothing is retried: exactly
    the lookup and the insert were issued, the unique-constraint violation
    is the error of the result handed to the caller, and the tables stay
    as they were when the insert arrived.  The quantity is one the column
    can hold. *)
Theorem addItem_returns_unique_violation (b : Backend) (u p : uuid) (q : Z) :
  let lookup := request (SelectCartItem u p) (Pg.select_cart_item u p) b in
  let arriving := rival (hd Quiet (script (snd lookup))) (db (snd lookup)) in
  data (fst lookup) = None ->
  hd Quiet (script (snd lookup)) <> Outage ->
  auth_uid b = Some u -> 0 < q -> q <= 2147483647 ->
  existsb (Pg.same_line u p) (cart_items arriving) = true ->
  cart.addItem u p q b
  = (failed UniqueViolation,
     mkBackend arriving (Some u) (tl (script (snd lookup)))
               (journal b ++ [SelectCartItem u p; InsertCartItem u p q])).
Proof.
  cbv zeta. intros Hnone Hup Hu Hq Hmax Hex.
  unfold cart.addItem, bind.
  assert (Hauth : auth_uid (snd (request (SelectCartItem u p) (Pg.select_cart_item u p) b))
                  = Some u).
  { unfold request. destruct (hd Quiet (script b)); cbn [snd auth_uid]; trivial;
      destruct (Pg.select_cart_item u p (auth_uid b) _); cbn [snd auth_uid]; trivial. }
  assert (Hj : journal (snd (request (SelectCartItem u p) (Pg.select_cart_item u p) b))
               = journal b ++ [SelectCartItem u p]).
  { unfold request. destruct (hd Quiet (script b)); cbn [snd journal]; trivial;
      destruct (Pg.select_cart_item u p (auth_uid b) _); cbn [snd journal]; trivial. }
  destruct (request (SelectCartItem u p) (Pg.select_cart_item u p) b) as [r b1].
  cbn [fst snd] in *. rewrite Hnone.
  unfold request. rewrite Hauth, Hj, <- app_assoc. cbn [app].
  assert (Hins : Pg.insert_cart_item u p q (Some u) (rival (hd Quiet (script b1)) (db b1))
                 = (failed UniqueViolation, rival (hd Quiet (script b1)) (db b1))).
  { unfold Pg.insert_cart_item. rewrite (int4_in_range q Hq Hmax).
    cbn [Pg.owns c_user_id]. rewrite Nat.eqb_refl. cbn [negb].
    destruct (Z.leb_spec q 0) as [Hle|_]; [lia|]. now rewrite Hex. }
  destruct (hd Quiet (script b1)); [ | congruence | ]; now rewrite Hins.
Qed.

Lemma addItem_returns_unique_violation_witness :
  cart.addItem Sample.shopper 3 2
    (Sample.session Sample.shop Sample.shopper [Quiet; RivalAdd Sample.shopper 3 5])
  = (failed UniqueViolation,
     mkBackend (mkDatabase Sample.people [Sample.prodA; Sample.prodB; Sample.prodC]
                           (Sample.lines ++ [mkCartRow 30 Sample.shopper 3 5]) [] 31)
               (Some Sample.shopper) []
               [SelectCartItem Sample.shopper 3; InsertCartItem Sample.shopper 3 2]).
Proof.
  exact (addItem_returns_unique_violation
           (Sample.session Sample.shop Sample.shopper [Quiet; RivalAdd Sample.shopper 3 5])
           Sample.shopper 3 2 eq_refl ltac:(discriminate) eq_refl eq_refl
           ltac:(discriminate) eq_refl).
Defined.

(** C5 as written fails: the other session's insert of five units lands
    between the lookup and the insert; the caller gets the violation, no
    update was issued, and the line holds five units, not seven. *)
Lemma unique_violation_is_not_retried :
  let b := Sample.session Sample.shop Sample.shopper [Quiet; RivalAdd Sample.shopper 3 5] in
  error (fst (cart.addItem Sample.shopper 3 2 b)) = Some UniqueViolation
  /\ journal (snd (cart.addItem Sample.shopper 3 2 b))
     = [SelectCartItem Sample.shopper 3; InsertCartItem Sample.shopper 3 2]
  /\ quantity_of Sample.shopper 3 (db (snd (cart.addItem Sample.shopper 3 2 b))) = 5.
Proof. vm_compute. repeat split. Qed.

(** ** Refreshing the view *)





Lemma publishCart_backend (rows : list (CartRow * option Product)) (b : Backend)
  (w : World) : backend (publishCart rows b w) = b.
Proof.
  unfold publishCart. now destruct (calculateTotals (map transform rows)) as [[t n]|].
Qed.

Lemma refreshCart_backend (u : uuid) (w : World) :
  backend (refreshCart (Some u) w) = snd (cart.getItems u (backend w)).
Proof.
  unfold refreshCart. destruct (cart.getItems u (backend w)) as [rows b].
  apply publishCart_backend.
Qed.





(** ** Adding the same product twice *)

Lemma own_line_filter (u p : uuid) (rows : list CartRow) :
  filter (fun r => Pg.same_line u p r && Pg.owns (Some u) r) rows
  = filter (Pg.same_line u p) rows.
Proof.
  apply filter_ext. intros r. unfold Pg.same_line, Pg.owns.
  destruct (Nat.eqb (c_user_id r) u); cbn [andb]; [apply andb_true_r | reflexivity].
Qed.

Lemma same_line_key (u p : uuid) (r : CartRow) :
  Pg.same_line u p r = true -> line_key r = (u, p).
Proof.
  unfold Pg.same_line, line_key. intros H. apply andb_prop in H.
  destruct H as [Hu Hp]. apply Nat.eqb_eq in Hu, Hp. congruence.
Qed.

Lemma same_line_owns (u p : uuid) (r : CartRow) :
  Pg.same_line u p r = true -> Pg.owns (Some u) r = true.
Proof. unfold Pg.same_line, Pg.owns. intros H. now apply andb_prop in H. Qed.

(** The insert of a pair that has no line yet, on a table that meets its
    constraints. *)
Lemma insert_cart_item_fresh (d : Database) (u p : uuid) (q : Z) :
  cart_constraints d -> has_profile u d = true -> has_product p d = true ->
  0 < q -> q <= 2147483647 -> lines_of u p d = [] ->
  let row := mkCartRow (next_uuid d) u p q in
  let d' := mkDatabase (profiles d) (products d) (cart_items d ++ [row]) (orders d)
                       (S (next_uuid d)) in
  Pg.insert_cart_item u p q (Some u) d = (ok row, d')
  /\ cart_constraints d' /\ lines_of u p d' = [row].
Proof.
  intros [Hpk Hids Huq Hck] Hprof Hprod Hq Hmax Hnone. cbv zeta.
  assert (Hline : Pg.same_line u p (mkCartRow (next_uuid d) u p q) = true).
  { unfold Pg.same_line; cbn. now rewrite !Nat.eqb_refl. }
  split; [|split].
  - unfold Pg.insert_cart_item. rewrite (int4_in_range q Hq Hmax).
    cbn [Pg.owns c_user_id]. rewrite Nat.eqb_refl.
    cbn [negb]. destruct (Z.leb_spec q 0) as [Hle|_]; [lia|].
    apply existsb_false_filter in Hnone. rewrite Hnone.
    unfold has_profile in Hprof. unfold has_product in Hprod.
    now rewrite Hprof, Hprod.
  - constructor; cbn [cart_items next_uuid].
    + rewrite map_app. apply NoDup_app; trivial.
      * cbn. constructor; [intros [] | constructor].
      * intros i Hi [E|[]]. cbn in E. subst i.
        apply in_map_iff in Hi. destruct Hi as [r [Er Hr]].
        rewrite Forall_forall in Hids. specialize (Hids r Hr). lia.
    + apply Forall_app. split.
      * eapply Forall_impl; [|exact Hids]. cbn. intros r Hr. lia.
      * constructor; [cbn; lia | constructor].
    + rewrite map_app. apply NoDup_app; trivial.
      * cbn. constructor; [intros [] | constructor].
      * intros k Hk [E|[]]. cbn in E. subst k.
        apply in_map_iff in Hk. destruct Hk as [r [Er Hr]].
        assert (Hin : In r (lines_of u p d)).
        { apply filter_In. split; trivial.
          unfold line_key in Er. unfold Pg.same_line.
          injection Er as -> ->. now rewrite !Nat.eqb_refl. }
        rewrite Hnone in Hin. contradiction.
    + apply Forall_app. split; trivial. constructor; [exact Hq | constructor].
  - unfold lines_of in *. cbn [cart_items]. rewrite filter_app, Hnone.
    cbn [filter app]. now rewrite Hline.
Qed.

(** The update of the one line a pair has, on a table that meets its
    constraints. *)
Lemma update_quantity_of_line (d : Database) (u p : uuid) (r : CartRow) (q : Z) :
  cart_constraints d -> In r (cart_items d) -> lines_of u p d = [r] ->
  0 < q -> q <= 2147483647 ->
  let d' := Pg.set_cart_items
              (map (fun x => if Nat.eqb (c_id x) (c_id r) then Pg.set_quantity q x else x)
                   (cart_items d)) d in
  Pg.update_quantity (c_id r) q (Some u) d = (ok (Pg.set_quantity q r), d')
  /\ cart_constraints d' /\ lines_of u p d' = [Pg.set_quantity q r].
Proof.
  intros [Hpk Hids Huq Hck] Hr Hone Hq Hmax. cbv zeta.
  assert (Hline : Pg.same_line u p r = true).
  { assert (H : In r (lines_of u p d)) by (rewrite Hone; now left).
    now apply filter_In in H. }
  set (upd := fun x => if Nat.eqb (c_id x) (c_id r) then Pg.set_quantity q x else x).
  assert (Hid : forall x, c_id (upd x) = c_id x).
  { intros x. unfold upd. now destruct (Nat.eqb (c_id x) (c_id r)). }
  assert (Hkey : forall x, line_key (upd x) = line_key x).
  { intros x. unfold upd. now destruct (Nat.eqb (c_id x) (c_id r)). }
  assert (Hsame : forall x, Pg.same_line u p (upd x) = Pg.same_line u p x).
  { intros x. unfold upd. now destruct (Nat.eqb (c_id x) (c_id r)). }
  split; [|split].
  - apply update_quantity_hit; trivial. now apply (same_line_owns u p).
  - constructor; cbn [Pg.set_cart_items cart_items next_uuid].
    + rewrite map_map. now rewrite (map_ext _ c_id Hid).
    + apply Forall_map. eapply Forall_impl; [|exact Hids].
      cbn. intros x Hx. now rewrite Hid.
    + rewrite map_map. now rewrite (map_ext _ line_key Hkey).
    + apply Forall_map. eapply Forall_impl; [|exact Hck].
      cbn. intros x Hx. unfold upd. now destruct (Nat.eqb (c_id x) (c_id r)).
  - unfold lines_of in *. cbn [Pg.set_cart_items cart_items].
    rewrite (filter_map_stable _ upd _ Hsame), Hone. cbn [map].
    unfold upd. now rewrite Nat.eqb_refl.
Qed.

(** One [addItem] on a quiet service, run by the owner of the cart, when
    the column can hold the new quantity. *)
Lemma addItem_quiet (b : Backend) (u p : uuid) (n : Z) :
  script b = [] -> auth_uid b = Some u -> cart_constraints (db b) ->
  has_profile u (db b) = true -> has_product p (db b) = true -> 0 < n ->
  quantity_of u p (db b) + n <= max_int4 ->
  exists row b',
    cart.addItem u p n b = (ok row, b')
    /\ script b' = [] /\ auth_uid b' = Some u /\ cart_constraints (db b')
    /\ has_profile u (db b') = true /\ has_product p (db b') = true
    /\ lines_of u p (db b') = [row]
    /\ c_quantity row = quantity_of u p (db b) + n.
Proof.
  intros Hq Hu Hc Hprof Hprod Hn Hmax. unfold max_int4 in Hmax.
  unfold cart.addItem, bind. rewrite (request_quiet _ _ b Hq), Hu.
  unfold Pg.select_cart_item at 1 2. rewrite own_line_filter.
  fold (lines_of u p (db b)).
  destruct (filter_by_key_cases line_key (Pg.same_line u p) (u, p) (cart_items (db b))
              (same_line_key u p) (cart_unique _ Hc)) as [Hnone | [r [Hr [Hline Hone]]]];
    fold (lines_of u p (db b)) in *.
  - rewrite Hnone. cbn [fst snd data failed].
    rewrite request_quiet by reflexivity. cbn [db auth_uid journal].
    assert (Hfit : n <= 2147483647).
    { unfold quantity_of in Hmax. rewrite Hnone in Hmax. cbn in Hmax. lia. }
    destruct (insert_cart_item_fresh (db b) u p n Hc Hprof Hprod Hn Hfit Hnone)
      as [E [Hc' Hl']].
    rewrite E. cbn [fst snd].
    eexists; eexists. split; [reflexivity|]. cbn [script auth_uid db].
    split; [reflexivity|]. split; [reflexivity|]. split; [exact Hc'|].
    split; [exact Hprof|]. split; [exact Hprod|]. split; [exact Hl'|].
    unfold quantity_of. rewrite Hnone. cbn. lia.
  - rewrite Hone. cbn [fst snd data ok].
    rewrite request_quiet by reflexivity. cbn [db auth_uid journal].
    assert (Hpos : 0 < c_quantity r + n).
    { pose proof (cart_check _ Hc) as Hck. rewrite Forall_forall in Hck.
      specialize (Hck r Hr). lia. }
    assert (Hfit : c_quantity r + n <= 2147483647).
    { unfold quantity_of in Hmax. rewrite Hone in Hmax. cbn in Hmax. lia. }
    destruct (update_quantity_of_line (db b) u p r (c_quantity r + n) Hc Hr Hone Hpos Hfit)
      as [E [Hc' Hl']].
    rewrite E. cbn [fst snd].
    eexists; eexists. split; [reflexivity|]. cbn [script auth_uid db].
    split; [reflexivity|]. split; [reflexivity|]. split; [exact Hc'|].
    split; [exact Hprof|]. split; [exact Hprod|]. split; [exact Hl'|].
    unfold quantity_of. rewrite Hone. cbn. lia.
Qed.

(** C1, within the range of the column: on a quiet service whose
    [cart_items] table meets its constraints, two successive [addItem]
    calls of the cart's owner for the same existing product, with positive
    quantities whose sum with what the pair held before is at most
    2147483647, both succeed and leave exactly one line for the pair; its
    quantity is what the pair held before plus [n1 + n2], hence [n1 + n2]
    when the pair had no line. *)
Theorem addItem_twice_one_line (b : Backend) (u p : uuid) (n1 n2 : Z) :
  script b = [] -> auth_uid b = Some u -> cart_constraints (db b) ->
  has_profile u (db b) = true -> has_product p (db b) = true ->
  0 < n1 -> 0 < n2 ->
  quantity_of u p (db b) + n1 + n2 <= max_int4 ->
  let first := cart.addItem u p n1 b in
  let second := cart.addItem u p n2 (snd first) in
  error (fst first) = None /\ error (fst second) = None
  /\ exists row,
       lines_of u p (db (snd second)) = [row]
       /\ c_quantity row = quantity_of u p (db b) + n1 + n2
       /\ (lines_of u p (db b) = [] -> c_quantity row = n1 + n2).
Proof.
  intros Hq Hu Hc Hprof Hprod H1 H2 Hmax. cbv zeta.
  assert (Hfit1 : quantity_of u p (db b) + n1 <= max_int4) by lia.
  destruct (addItem_quiet b u p n1 Hq Hu Hc Hprof Hprod H1 Hfit1)
    as [row1 [b1 [E1 [Hq1 [Hu1 [Hc1 [Hprof1 [Hprod1 [Hl1 Hn1]]]]]]]]].
  rewrite E1. cbn [fst snd].
  assert (Hfit2 : quantity_of u p (db b1) + n2 <= max_int4).
  { unfold quantity_of at 1. rewrite Hl1. cbn [fold_right]. lia. }
  destruct (addItem_quiet b1 u p n2 Hq1 Hu1 Hc1 Hprof1 Hprod1 H2 Hfit2)
    as [row2 [b2 [E2 [_ [_ [_ [_ [_ [Hl2 Hn2]]]]]]]]].
  rewrite E2. cbn [fst snd].
  split; [reflexivity|]. split; [reflexivity|].
  exists row2. split; [exact Hl2|].
  assert (Hsum : c_quantity row2 = quantity_of u p (db b) + n1 + n2).
  { rewrite Hn2. unfold quantity_of at 1. rewrite Hl1. cbn. lia. }
  split; [exact Hsum|].
  intros Hnone. rewrite Hsum. unfold quantity_of. rewrite Hnone. cbn. lia.
Qed.

Lemma shop_constraints : cart_constraints Sample.shop.
Proof.
  constructor; cbn.
  - repeat constructor; cbn; intuition discriminate.
  - repeat constructor; cbn; lia.
  - repeat constructor; cbn; intuition discriminate.
  - repeat constructor; cbn; lia.
Qed.

Lemma addItem_twice_one_line_witness :
  let b := Sample.session Sample.shop Sample.shopper [] in
  (exists row,
     lines_of Sample.shopper 3
       (db (snd (cart.addItem Sample.shopper 3 3 (snd (cart.addItem Sample.shopper 3 2 b)))))
     = [row] /\ c_quantity row = 5)
  /\ (exists row,
        lines_of Sample.shopper 1
          (db (snd (cart.addItem Sample.shopper 1 3 (snd (cart.addItem Sample.shopper 1 2 b)))))
        = [row] /\ c_quantity row = 7).
Proof.
  set (b := Sample.session Sample.shop Sample.shopper []). cbv zeta. split.
  - destruct (addItem_twice_one_line b Sample.shopper 3 2 3 eq_refl eq_refl
                shop_constraints eq_refl eq_refl eq_refl eq_refl
                ltac:(discriminate))
      as [_ [_ [row [Hl [_ Hfresh]]]]].
    exists row. split; [exact Hl | exact (Hfresh eq_refl)].
  - destruct (addItem_twice_one_line b Sample.shopper 1 2 3 eq_refl eq_refl
                shop_constraints eq_refl eq_refl eq_refl eq_refl
                ltac:(discriminate))
      as [_ [_ [row [Hl [Hsum _]]]]].
    exists row. split; [exact Hl | exact Hsum].
Defined.

(** C1 as written fails: 2147483647 and 1 are positive, the first add
    stores its line, and the second asks for a quantity the column cannot
    hold; it is refused and the line keeps 2147483647, not the sum. *)
Lemma second_add_overflows_the_column :
  let b := Sample.session Sample.shop Sample.shopper [] in
  let first := cart.addItem Sample.shopper 3 2147483647 b in
  let second := cart.addItem Sample.shopper 3 1 (snd first) in
  error (fst first) = None
  /\ error (fst second) = Some NumericOutOfRange
  /\ map c_quantity (lines_of Sample.shopper 3 (db (snd second))) = [2147483647]
  /\ 2147483647 <> 2147483647 + 1.
Proof. cbv zeta. repeat split. lia. Qed.

(** * Further properties of the cart provider *)

(** ** The totals always match the items *)

Lemma refreshCart_consistent (user : option uuid) (w : World) :
  view_consistent (state w) -> view_consistent (state (refreshCart user w)).
Proof.
  intros H. unfold refreshCart. destruct user as [u|]; [|reflexivity].
  destruct (cart.getItems u (backend w)) as [cartItems b]. unfold publishCart.
  destruct (calculateTotals (map transform cartItems)) as [[t n]|] eqn:E.
  - exact E.
  - exact H.
Qed.

(** X1: a view whose totals agree with its items keeps that agreement
    through every operation of the provider, for every user, argument and
    behaviour of the service. *)
Theorem provider_keeps_totals_consistent (title : Product -> string)
  (user : option uuid) (w : World) :
  view_consistent (state w) ->
  view_consistent (state (refreshCart user w))
  /\ (forall product q, view_consistent (state (addToCart title user product q w)))
  /\ (forall itemId, view_consistent (state (removeFromCart user itemId w)))
  /\ (forall itemId q, view_consistent (state (updateQuantity user itemId q w)))
  /\ view_consistent (state (clearCart user w)).
Proof.
  intros H. split; [now apply refreshCart_consistent|].
  split; [|split; [|split]].
  - intros product q. unfold addToCart. destruct user as [u|]; [|exact H].
    destruct (cart.addItem u (p_id product) q (backend w)) as [r b]. cbn [state].
    now apply refreshCart_consistent.
  - intros itemId. unfold removeFromCart. destruct user as [u|]; [|exact H].
    destruct (cart.removeItem itemId (backend w)) as [r b]. cbn [state].
    now apply refreshCart_consistent.
  - intros itemId q. unfold updateQuantity. destruct user as [u|]; [|exact H].
    destruct (cart.updateQuantity itemId q (backend w)) as [r b].
    now apply refreshCart_consistent.
  - unfold clearCart. destruct user as [u|]; [|exact H].
    destruct (cart.clearCart u (backend w)) as [r b]. cbn [state].
    now apply refreshCart_consistent.
Qed.

Lemma provider_keeps_totals_consistent_witness :
  view_consistent initial_state
  /\ view_consistent
       (state (removeFromCart (Some Sample.shopper) 20
                 (mkWorld (Sample.session Sample.shop Sample.shopper []) initial_state []))).
Proof.
  assert (H : view_consistent initial_state) by reflexivity.
  split; [exact H|].
  destruct (provider_keeps_totals_consistent (fun p => p_name p) (Some Sample.shopper)
              (mkWorld (Sample.session Sample.shop Sample.shopper []) initial_state []) H)
    as [_ [_ [Hrm _]]].
  exact (Hrm 20%nat).
Defined.

(** ** The constraints of [cart_items] survive every helper *)

Lemma NoDup_map_filter {A K} (key : A -> K) (keep : A -> bool) (l : list A) :
  NoDup (map key l) -> NoDup (map key (filter keep l)).
Proof.
  induction l as [|x rest IH]; intros H; [exact H|].
  cbn [map] in H. inversion H as [|? ? Hx Hrest]; subst.
  cbn [filter]. destruct (keep x); [|now apply IH].
  cbn [map]. constructor; [|now apply IH].
  intros Hin. apply Hx. apply in_map_iff in Hin. destruct Hin as [y [Ey Hy]].
  apply filter_In in Hy. rewrite <- Ey. apply in_map. tauto.
Qed.

Lemma Forall_filter_keep {A} (P : A -> Prop) (keep : A -> bool) (l : list A) :
  Forall P l -> Forall P (filter keep l).
Proof.
  rewrite !Forall_forall. intros H x Hx. apply filter_In in Hx. apply H. tauto.
Qed.

Lemma constraints_after_delete (keep : CartRow -> bool) (d : Database) :
  cart_constraints d ->
  cart_constraints (Pg.set_cart_items (filter keep (cart_items d)) d).
Proof.
  intros [Hpk Hids Huq Hck].
  constructor; cbn [Pg.set_cart_items cart_items next_uuid].
  - now apply NoDup_map_filter.
  - now apply Forall_filter_keep.
  - now apply NoDup_map_filter.
  - now apply Forall_filter_keep.
Qed.

Lemma constraints_after_update (hit : CartRow -> bool) (q : Z) (d : Database) :
  0 < q -> cart_constraints d ->
  cart_constraints
    (Pg.set_cart_items
       (map (fun x => if hit x then Pg.set_quantity q x else x) (cart_items d)) d).
Proof.
  intros Hq [Hpk Hids Huq Hck].
  set (upd := fun x => if hit x then Pg.set_quantity q x else x).
  assert (Hid : forall x, c_id (upd x) = c_id x).
  { intros x. unfold upd. now destruct (hit x). }
  assert (Hkey : forall x, line_key (upd x) = line_key x).
  { intros x. unfold upd. now destruct (hit x). }
  constructor; cbn [Pg.set_cart_items cart_items next_uuid].
  - rewrite map_map. now rewrite (map_ext _ c_id Hid).
  - apply Forall_map. eapply Forall_impl; [|exact Hids].
    cbn. intros x Hx. now rewrite Hid.
  - rewrite map_map. now rewrite (map_ext _ line_key Hkey).
  - apply Forall_map. eapply Forall_impl; [|exact Hck].
    cbn. intros x Hx. unfold upd. now destruct (hit x).
Qed.

Lemma update_quantity_keeps (i : uuid) (q : Z) (uid : option uuid) (d : Database) :
  cart_constraints d -> cart_constraints (snd (Pg.update_quantity i q uid d)).
Proof.
  intros H. unfold Pg.update_quantity.
  destruct (negb (Pg.int4 q)); cbn [snd]; trivial.
  destruct (filter _ (cart_items d)) as [|r [|r' l]]; cbn [snd]; trivial;
    destruct (Z.leb_spec q 0); cbn [snd]; trivial.
  now apply constraints_after_update.
Qed.

Lemma insert_cart_item_keeps (u p : uuid) (q : Z) (uid : option uuid) (d : Database) :
  cart_constraints d -> cart_constraints (snd (Pg.insert_cart_item u p q uid d)).
Proof.
  intros H. unfold Pg.insert_cart_item.
  destruct (negb (Pg.int4 q)); cbn [snd]; trivial.
  destruct (negb (Pg.owns uid _)); cbn [snd]; trivial.
  destruct (Z.leb_spec q 0) as [|Hq]; cbn [snd]; trivial.
  destruct (existsb (Pg.same_line u p) (cart_items d)) eqn:Ex; cbn [snd]; trivial.
  destruct (negb _); cbn [snd]; trivial.
  destruct H as [Hpk Hids Huq Hck].
  apply existsb_false_filter in Ex.
  constructor; cbn [cart_items next_uuid].
  - rewrite map_app. apply NoDup_app; trivial.
    + cbn. constructor; [intros [] | constructor].
    + intros i Hi [E|[]]. cbn in E. subst i.
      apply in_map_iff in Hi. destruct Hi as [r [Er Hr]].
      rewrite Forall_forall in Hids. specialize (Hids r Hr). lia.
  - apply Forall_app. split.
    + eapply Forall_impl; [|exact Hids]. cbn. intros r Hr. lia.
    + constructor; [cbn; lia | constructor].
  - rewrite map_app. apply NoDup_app; trivial.
    + cbn. constructor; [intros [] | constructor].
    + intros k Hk [E|[]]. cbn in E. subst k.
      apply in_map_iff in Hk. destruct Hk as [r [Er Hr]].
      assert (Hin : In r (filter (Pg.same_line u p) (cart_items d))).
      { apply filter_In. split; trivial.
        unfold line_key in Er. unfold Pg.same_line.
        injection Er as -> ->. now rewrite !Nat.eqb_refl. }
      rewrite Ex in Hin. contradiction.
  - apply Forall_app. split; trivial. constructor; [exact Hq | constructor].
Qed.

Lemma rival_keeps (a : Ambient) (d : Database) :
  cart_constraints d -> cart_constraints (rival a d).
Proof.
  intros H. destruct a; cbn [rival]; trivial. now apply insert_cart_item_keeps.
Qed.

Lemma request_keeps {A} (rq : Request)
  (run : option uuid -> Database -> Response A * Database) (b : Backend) :
  (forall uid d, cart_constraints d -> cart_constraints (snd (run uid d))) ->
  cart_constraints (db b) -> cart_constraints (db (snd (request rq run b))).
Proof.
  intros Hrun H. unfold request.
  pose proof (Hrun (auth_uid b) (rival (hd Quiet (script b)) (db b))
                   (rival_keeps _ _ H)) as Hk.
  destruct (hd Quiet (script b));
    try (destruct (run (auth_uid b) _) as [r d']); cbn [snd db] in *; trivial.
Qed.

(** X2: whatever the arguments, the signed-in principal, the transport
    failures and the inserts of other sessions, each helper of [cart]
    leaves a [cart_items] table that still has unique ids, at most one
    line per (user, product) pair and positive quantities only. *)
Theorem cart_helpers_keep_constraints (b : Backend) :
  cart_constraints (db b) ->
  (forall u, cart_constraints (db (snd (cart.getItems u b))))
  /\ (forall u p q, cart_constraints (db (snd (cart.addItem u p q b))))
  /\ (forall i q, cart_constraints (db (snd (cart.updateQuantity i q b))))
  /\ (forall i, cart_constraints (db (snd (cart.removeItem i b))))
  /\ (forall u, cart_constraints (db (snd (cart.clearCart u b)))).
Proof.
  intros H.
  assert (Hrm : forall i b0, cart_constraints (db b0) ->
                             cart_constraints (db (snd (cart.removeItem i b0)))).
  { intros i b0 H0. unfold cart.removeItem. apply request_keeps; trivial.
    intros uid d Hd. now apply constraints_after_delete. }
  assert (Hup : forall i q b0, cart_constraints (db b0) ->
                  cart_constraints
                    (db (snd (request (UpdateQuantity i q) (Pg.update_quantity i q) b0)))).
  { intros i q b0 H0. apply request_keeps; trivial.
    intros uid d Hd. now apply update_quantity_keeps. }
  split; [|split; [|split; [|split]]].
  - intros u. unfold cart.getItems, bind.
    assert (Hsel : forall uid d, cart_constraints d ->
                     cart_constraints (snd (Pg.select_cart_items u uid d))).
    { intros uid d Hd. unfold Pg.select_cart_items.
      now destruct (Pg.authenticated uid). }
    pose proof (request_keeps (SelectCartItems u) (Pg.select_cart_items u) b Hsel H)
      as Hk.
    destruct (request (SelectCartItems u) (Pg.select_cart_items u) b) as [r b1].
    cbn [snd] in Hk. destruct (error r); exact Hk.
  - intros u p q. unfold cart.addItem, bind.
    assert (Hsel : forall uid d, cart_constraints d ->
                     cart_constraints (snd (Pg.select_cart_item u p uid d))).
    { intros uid d Hd. unfold Pg.select_cart_item.
      destruct (filter _ (cart_items d)) as [|r [|r' l]]; exact Hd. }
    pose proof (request_keeps (SelectCartItem u p) (Pg.select_cart_item u p) b Hsel H)
      as Hk.
    destruct (request (SelectCartItem u p) (Pg.select_cart_item u p) b) as [r b1].
    cbn [snd] in Hk. destruct (data r) as [existing|].
    + now apply Hup.
    + apply request_keeps; trivial. intros uid d Hd. now apply insert_cart_item_keeps.
  - intros i q. unfold cart.updateQuantity. destruct (q <=? 0); [now apply Hrm | now apply Hup].
  - intros i. now apply Hrm.
  - intros u. unfold cart.clearCart. apply request_keeps; trivial.
    intros uid d Hd. now apply constraints_after_delete.
Qed.

Lemma cart_helpers_keep_constraints_witness :
  cart_constraints
    (db (snd (cart.addItem Sample.shopper 3 2
                (Sample.session Sample.shop Sample.shopper
                                [Quiet; RivalAdd Sample.shopper 3 5])))).
Proof.
  destruct (cart_helpers_keep_constraints
              (Sample.session Sample.shop Sample.shopper
                              [Quiet; RivalAdd Sample.shopper 3 5])
              shop_constraints) as [_ [Hadd _]].
  exact (Hadd Sample.shopper 3%nat 2).
Defined.

(** ** Clearing the cart *)

Lemma filter_complement {A} (f : A -> bool) (l : list A) :
  filter f (filter (fun x => negb (f x)) l) = [].
Proof.
  apply filter_none. intros y Hy. apply filter_In in Hy.
  destruct Hy as [_ Hy]. now apply negb_true_iff in Hy.
Qed.

(** X3: when the signed-in owner clears the cart on a quiet service, no
    line of that user is left in the table, the lines of every other user
    are what they were, and the provider publishes the empty view with
    its success toast. *)
Theorem clearCart_empties_the_cart (w : World) (u : uuid) :
  script (backend w) = [] -> auth_uid (backend w) = Some u ->
  let w' := clearCart (Some u) w in
  state w' = mkCartState [] PrimFloat.zero 0 false
  /\ filter (fun r => Nat.eqb (c_user_id r) u) (cart_items (db (backend w'))) = []
  /\ filter (fun r => negb (Nat.eqb (c_user_id r) u)) (cart_items (db (backend w')))
     = filter (fun r => negb (Nat.eqb (c_user_id r) u)) (cart_items (db (backend w)))
  /\ toasts w' = toasts w ++ [toast_success "Cart cleared"].
Proof.
  intros Hq Hu. cbv zeta. unfold clearCart, cart.clearCart.
  rewrite (request_quiet _ _ (backend w) Hq). cbn [fst snd].
  rewrite refreshCart_signed_in_run. cbn [backend state toasts].
  rewrite getItems_quiet_run by reflexivity.
  unfold Pg.delete_cart_items.
  cbn [db auth_uid snd Pg.set_cart_items cart_items]. rewrite Hu.
  assert (Hhit : forall r, Nat.eqb (c_user_id r) u && Pg.owns (Some u) r
                           = Nat.eqb (c_user_id r) u).
  { intros r. cbn [Pg.owns]. now destruct (Nat.eqb (c_user_id r) u). }
  rewrite (filter_ext (fun r => negb (Nat.eqb (c_user_id r) u && Pg.owns (Some u) r))
                      (fun r => negb (Nat.eqb (c_user_id r) u))
                      (fun r => f_equal negb (Hhit r))).
  split; [reflexivity|]. split; [apply filter_complement|].
  split; [apply filter_twice | reflexivity].
Qed.

Lemma clearCart_empties_the_cart_witness :
  state (clearCart (Some Sample.shopper)
           (mkWorld (Sample.session Sample.shop Sample.shopper []) Sample.view []))
  = mkCartState [] PrimFloat.zero 0 false.
Proof.
  exact (proj1 (clearCart_empties_the_cart
                  (mkWorld (Sample.session Sample.shop Sample.shopper []) Sample.view [])
                  Sample.shopper eq_refl eq_refl)).
Defined.

(** ** Requests the service refuses *)

(** X4: setting a positive quantity the column can hold on an id that
    matches no line of the caller answers with the not-a-single-row error
    and changes nothing: no line is created. *)
Theorem updateQuantity_unknown_line (b : Backend) (itemId : uuid) (q : Z) :
  1 <= q -> q <= 2147483647 -> script b = [] ->
  (forall r, In r (cart_items (db b)) -> c_id r = itemId ->
             Pg.owns (auth_uid b) r = false) ->
  cart.updateQuantity itemId q b
  = (failed NotSingleRow,
     mkBackend (db b) (auth_uid b) [] (journal b ++ [UpdateQuantity itemId q])).
Proof.
  intros Hge Hmax Hq Hnone. unfold cart.updateQuantity.
  destruct (Z.leb_spec q 0) as [Hle|_]; [lia|].
  rewrite (request_quiet _ _ b Hq). unfold Pg.update_quantity.
  rewrite int4_in_range by lia. cbn [negb].
  rewrite filter_none; [reflexivity|].
  intros r Hr. destruct (Nat.eqb_spec (c_id r) itemId) as [E|]; [|reflexivity].
  cbn [andb]. now apply Hnone.
Qed.

Lemma updateQuantity_unknown_line_witness :
  cart.updateQuantity 99 4 (Sample.session Sample.shop Sample.shopper [])
  = (failed NotSingleRow,
     mkBackend Sample.shop (Some Sample.shopper) [] [UpdateQuantity 99 4]).
Proof.
  apply (updateQuantity_unknown_line (Sample.session Sample.shop Sample.shopper []) 99 4).
  - lia.
  - lia.
  - reflexivity.
  - cbn. intros r [<-|[<-|[]]]; discriminate.
Defined.

(** X5: [addItem] cannot take a line to zero or below: when the quantity
    the pair holds plus the quantity added is not positive (and not below
    the range of the column), the service refuses with a check violation
    and the table stays as it was (the line, if any, keeps its
    quantity). *)
Theorem addItem_refuses_nonpositive_total (b : Backend) (u p : uuid) (n : Z) :
  script b = [] -> auth_uid b = Some u -> cart_constraints (db b) ->
  -2147483648 <= quantity_of u p (db b) + n -> quantity_of u p (db b) + n <= 0 ->
  fst (cart.addItem u p n b) = failed CheckViolation
  /\ db (snd (cart.addItem u p n b)) = db b.
Proof.
  intros Hq Hu Hc Hmin Hsum.
  assert (E : exists b', cart.addItem u p n b = (failed CheckViolation, b')
                         /\ db b' = db b).
  { unfold cart.addItem, bind. rewrite (request_quiet _ _ b Hq), Hu.
    unfold Pg.select_cart_item. rewrite own_line_filter.
    fold (lines_of u p (db b)). unfold quantity_of in Hsum, Hmin.
    destruct (filter_by_key_cases line_key (Pg.same_line u p) (u, p) (cart_items (db b))
                (same_line_key u p) (cart_unique _ Hc))
      as [Hnone | [r [Hr [Hline Hone]]]];
      fold (lines_of u p (db b)) in *.
    - rewrite Hnone in *. cbn [fst snd data failed fold_right] in *.
      rewrite request_quiet by reflexivity. cbn [db auth_uid journal].
      unfold Pg.insert_cart_item.
      replace (Pg.int4 n) with true
        by (symmetry; unfold Pg.int4; apply andb_true_intro; split; lia).
      cbn [Pg.owns c_user_id]. rewrite Nat.eqb_refl.
      cbn [negb]. destruct (Z.leb_spec n 0) as [_|Hlt]; [|lia].
      eexists. split; reflexivity.
    - rewrite Hone in *. cbn [fst snd data ok fold_right] in *.
      rewrite request_quiet by reflexivity. cbn [db auth_uid journal].
      unfold Pg.update_quantity.
      replace (Pg.int4 (c_quantity r + n)) with true
        by (symmetry; unfold Pg.int4; apply andb_true_intro; split; lia).
      cbn [negb].
      rewrite (filter_by_key c_id _ (c_id r) (cart_items (db b)) r).
      + destruct (Z.leb_spec (c_quantity r + n) 0) as [_|Hlt]; [|lia].
        eexists. split; reflexivity.
      + intros x Hx. apply andb_prop in Hx. now apply Nat.eqb_eq.
      + exact (cart_pkey _ Hc).
      + exact Hr.
      + now rewrite Nat.eqb_refl, (same_line_owns u p r Hline). }
  destruct E as [b' [E Hdb]]. rewrite E. split; [reflexivity | exact Hdb].
Qed.

Lemma addItem_refuses_nonpositive_total_witness :
  fst (cart.addItem Sample.shopper 1 (-2) (Sample.session Sample.shop Sample.shopper []))
  = failed CheckViolation
  /\ db (snd (cart.addItem Sample.shopper 1 (-2)
                (Sample.session Sample.shop Sample.shopper [])))
     = Sample.shop.
Proof.
  apply (addItem_refuses_nonpositive_total
           (Sample.session Sample.shop Sample.shopper []) Sample.shopper 1 (-2)
           eq_refl eq_refl shop_constraints); cbn; lia.
Defined.



(** ** Refreshing again *)

Lemma refreshCart_db_quiet (user : option uuid) (w : World) :
  script (backend w) = [] -> db (backend (refreshCart user w)) = db (backend w).
Proof.
  intros Hq. destruct user as [u|]; [|reflexivity].
  now rewrite refreshCart_backend, (getItems_quiet_run u (backend w) Hq).
Qed.

(** X7: on a quiet service [refreshCart] writes nothing to the tables,
    and refreshing a second time publishes the state the first refresh
    published. *)
Theorem refreshCart_reads_and_settles (user : option uuid) (w : World) :
  script (backend w) = [] ->
  db (backend (refreshCart user w)) = db (backend w)
  /\ state (refreshCart user (refreshCart user w)) = state (refreshCart user w).
Proof.
  intros Hq. split; [now apply refreshCart_db_quiet|].
  destruct user as [u|]; [|reflexivity].
  now rewrite !refreshCart_signed_in_run.
Qed.

Lemma refreshCart_reads_and_settles_witness :
  let w := mkWorld (Sample.session Sample.shop_retired Sample.shopper []) Sample.view [] in
  db (backend (refreshCart (Some Sample.shopper) w)) = Sample.shop_retired
  /\ state (refreshCart (Some Sample.shopper) (refreshCart (Some Sample.shopper) w))
     = state (refreshCart (Some Sample.shopper) w).
Proof.
  exact (refreshCart_reads_and_settles (Some Sample.shopper)
           (mkWorld (Sample.session Sample.shop_retired Sample.shopper []) Sample.view [])
           eq_refl).
Defined.


(** ** The quantity picker of the product page *)

Lemma adjustQuantity_bounds (product : option Product) (quantity delta : Z) :
  1 <= adjustQuantity product quantity delta
       <= Z.max 1 (match product with Some p => p_stock p | None => 1 end).
Proof.
  unfold adjustQuantity, stock_or_one. destruct product as [p|].
  - destruct (Z.eqb_spec (p_stock p) 0); lia.
  - lia.
Qed.

(** X8: whatever buttons were clicked, the quantity the product page
    hands to [addToCart] is at least one and at most the stock of the
    product (one, when the stock is zero or the product is missing); a
    click that stays within these bounds moves the quantity by exactly
    its delta. *)
Theorem picker_quantity_bounds (product : option Product) (deltas : list Z) :
  1 <= quantity_after product deltas
       <= Z.max 1 (match product with Some p => p_stock p | None => 1 end)
  /\ forall delta,
       1 <= quantity_after product deltas + delta <= stock_or_one product ->
       quantity_after product (deltas ++ [delta]) = quantity_after product deltas + delta.
Proof.
  split.
  - unfold quantity_after.
    assert (H : forall q, 1 <= q <= Z.max 1 (match product with
                                            | Some p => p_stock p | None => 1 end) ->
                          1 <= fold_left (adjustQuantity product) deltas q
                          <= Z.max 1 (match product with
                                      | Some p => p_stock p | None => 1 end)).
    { induction deltas as [|d rest IH]; intros q Hb; [exact Hb|].
      cbn [fold_left]. apply IH. apply adjustQuantity_bounds. }
    apply H. clear H. destruct product; cbn beta iota; lia.
  - intros delta Hb. unfold quantity_after in *. rewrite fold_left_app.
    cbn [fold_left]. generalize dependent (fold_left (adjustQuantity product) deltas 1).
    intros x Hb. unfold adjustQuantity. lia.
Qed.

Lemma picker_quantity_bounds_witness :
  quantity_after (Some Sample.prodA) ([1; 1; -1] ++ [1]) = 3.
Proof.
  destruct (picker_quantity_bounds (Some Sample.prodA) [1; 1; -1]) as [_ H].
  exact (H 1 ltac:(vm_compute; split; intro; discriminate)).
Defined.


(** ** Mutations that never reached the service *)

(** X9: when every request of [removeFromCart], [clearCart] or
    [addToCart] meets a transport failure, the mutation and the fetch
    after it alike, the tables are left as they were, the provider
    publishes the empty view, and it still ends by showing the
    operation's success toast and nothing else. *)
Theorem lost_mutation_is_reported_as_done (title : Product -> string) (w : World)
  (u : uuid) (rest : list Ambient) :
  (forall itemId,
     script (backend w) = Outage :: Outage :: rest ->
     let w' := removeFromCart (Some u) itemId w in
     db (backend w') = db (backend w)
     /\ state w' = mkCartState [] PrimFloat.zero 0 false
     /\ journal (backend w')
        = journal (backend w) ++ [DeleteCartItem itemId; SelectCartItems u]
     /\ toasts w' = toasts w ++ [toast_success "Item removed from cart"])
  /\ (script (backend w) = Outage :: Outage :: rest ->
      let w' := clearCart (Some u) w in
      db (backend w') = db (backend w)
      /\ state w' = mkCartState [] PrimFloat.zero 0 false
      /\ journal (backend w')
         = journal (backend w) ++ [DeleteCartItems u; SelectCartItems u]
      /\ toasts w' = toasts w ++ [toast_success "Cart cleared"])
  /\ (forall product q,
        script (backend w) = Outage :: Outage :: Outage :: rest ->
        let w' := addToCart title (Some u) product q w in
        db (backend w') = db (backend w)
        /\ state w' = mkCartState [] PrimFloat.zero 0 false
        /\ journal (backend w')
           = journal (backend w)
             ++ [SelectCartItem u (p_id product); InsertCartItem u (p_id product) q;
                 SelectCartItems u]
        /\ toasts w' = toasts w
                       ++ [toast_success (title product ++ " added to cart")]).
Proof.
  split; [|split].
  - intros itemId Hs. cbv zeta. unfold removeFromCart, cart.removeItem, request.
    rewrite Hs. cbn [hd tl fst snd]. rewrite refreshCart_signed_in_run.
    cbn [backend state toasts].
    rewrite (getItems_outage u _ rest) by reflexivity.
    cbn [snd db journal]. rewrite <- app_assoc. repeat split.
  - intros Hs. cbv zeta. unfold clearCart, cart.clearCart, request.
    rewrite Hs. cbn [hd tl fst snd]. rewrite refreshCart_signed_in_run.
    cbn [backend state toasts].
    rewrite (getItems_outage u _ rest) by reflexivity.
    cbn [snd db journal]. rewrite <- app_assoc. repeat split.
  - intros product q Hs. cbv zeta. unfold addToCart, cart.addItem, bind, request.
    rewrite Hs. cbn [hd tl fst snd data failed script].
    rewrite refreshCart_signed_in_run. cbn [backend state toasts].
    rewrite (getItems_outage u _ rest) by reflexivity.
    cbn [snd db journal]. rewrite <- !app_assoc. repeat split.
Qed.

Lemma lost_mutation_is_reported_as_done_witness :
  let w := mkWorld (Sample.session Sample.shop Sample.shopper [Outage; Outage])
                   Sample.view [] in
  db (backend (removeFromCart (Some Sample.shopper) 20 w)) = Sample.shop
  /\ state (removeFromCart (Some Sample.shopper) 20 w) = Sample.blank
  /\ toasts (removeFromCart (Some Sample.shopper) 20 w)
     = [toast_success "Item removed from cart"].
Proof.
  cbv zeta.
  destruct (lost_mutation_is_reported_as_done (fun p => p_name p)
              (mkWorld (Sample.session Sample.shop Sample.shopper [Outage; Outage])
                       Sample.view [])
              Sample.shopper []) as [H _].
  destruct (H 20%nat eq_refl) as (Hd & Hs & _ & Ht).
  split; [exact Hd | split; [exact Hs | exact Ht]].
Defined.

(** ** What is stored and what is shown after a mutation *)

(** X10: after [removeFromCart] by the signed-in owner on a quiet service
    the table has lost the caller's line of that id and no other row; the
    fetch that follows is refused, so the view the provider publishes is
    the empty one, whatever lines the user still has; the success toast
    is shown. *)
Theorem removeFromCart_drops_the_line (w : World) (u itemId : uuid) :
  script (backend w) = [] -> auth_uid (backend w) = Some u ->
  let w' := removeFromCart (Some u) itemId w in
  cart_items (db (backend w'))
  = filter (fun r => negb (Nat.eqb (c_id r) itemId && Nat.eqb (c_user_id r) u))
           (cart_items (db (backend w)))
  /\ state w' = mkCartState [] PrimFloat.zero 0 false
  /\ journal (backend w')
     = journal (backend w) ++ [DeleteCartItem itemId; SelectCartItems u]
  /\ toasts w' = toasts w ++ [toast_success "Item removed from cart"].
Proof.
  intros Hq Hu. cbv zeta. unfold removeFromCart, cart.removeItem.
  rewrite (request_quiet _ _ (backend w) Hq). cbn [fst snd].
  rewrite refreshCart_signed_in_run. cbn [backend state toasts].
  rewrite getItems_quiet_run by reflexivity.
  unfold Pg.delete_cart_item. rewrite Hu.
  cbn [snd db journal Pg.set_cart_items cart_items Pg.owns].
  rewrite <- app_assoc. repeat split.
Qed.

Lemma removeFromCart_drops_the_line_witness :
  let w := mkWorld (Sample.session Sample.shop Sample.shopper []) Sample.view [] in
  cart_items (db (backend (removeFromCart (Some Sample.shopper) 20 w)))
  = [mkCartRow 21 Sample.shopper 2 1]
  /\ items (state (removeFromCart (Some Sample.shopper) 20 w)) = [].
Proof.
  cbv zeta.
  destruct (removeFromCart_drops_the_line
              (mkWorld (Sample.session Sample.shop Sample.shopper []) Sample.view [])
              Sample.shopper 20 eq_refl eq_refl) as (Ht & Hs & _).
  rewrite Ht, Hs. split; reflexivity.
Defined.

(** X11: after [addToCart] by the signed-in owner on a quiet service, for
    a product on file and a positive quantity the column can hold on top
    of what the pair had, the table holds exactly one line for the pair
    with the previous quantity plus the quantity added; the view the
    provider publishes is nevertheless empty, with an item count of zero,
    and the toast shown is the rendering of [product.title] followed by
    " added to cart". *)
Theorem addToCart_stores_the_line (title : Product -> string) (w : World) (u : uuid)
  (product : Product) (n : Z) :
  script (backend w) = [] -> auth_uid (backend w) = Some u ->
  cart_constraints (db (backend w)) ->
  has_profile u (db (backend w)) = true ->
  has_product (p_id product) (db (backend w)) = true -> 0 < n ->
  quantity_of u (p_id product) (db (backend w)) + n <= max_int4 ->
  let w' := addToCart title (Some u) product n w in
  (exists row,
     lines_of u (p_id product) (db (backend w')) = [row]
     /\ c_quantity row = quantity_of u (p_id product) (db (backend w)) + n)
  /\ state w' = mkCartState [] PrimFloat.zero 0 false
  /\ toasts w' = toasts w ++ [toast_success (title product ++ " added to cart")].
Proof.
  intros Hq Hu Hc Hprof Hprod Hn Hmax. cbv zeta. unfold addToCart.
  destruct (addItem_quiet (backend w) u (p_id product) n Hq Hu Hc Hprof Hprod Hn Hmax)
    as (row & b' & E & Hq' & _ & _ & _ & _ & Hl & Hqty).
  rewrite E. rewrite refreshCart_signed_in_run. cbn [backend state toasts].
  rewrite (getItems_quiet_run u b' Hq'). cbn [snd db].
  split; [exists row; split; assumption | split; reflexivity].
Qed.

Lemma addToCart_stores_the_line_witness :
  let w := mkWorld (Sample.session Sample.shop Sample.shopper []) Sample.view [] in
  let w' := addToCart (fun _ => "undefined"%string) (Some Sample.shopper)
                      Sample.prodC 2 w in
  itemCount (state w') = 0
  /\ toasts w' = [toast_success "undefined added to cart"]
  /\ exists row, lines_of Sample.shopper 3 (db (backend w')) = [row]
                 /\ c_quantity row = 2.
Proof.
  cbv zeta.
  destruct (addToCart_stores_the_line (fun _ => "undefined"%string)
              (mkWorld (Sample.session Sample.shop Sample.shopper []) Sample.view [])
              Sample.shopper Sample.prodC 2
              eq_refl eq_refl shop_constraints eq_refl eq_refl eq_refl
              ltac:(discriminate))
    as ((row & Hl & Hqty) & Hs & Ht).
  rewrite Hs, Ht. split; [reflexivity|]. split; [reflexivity|].
  exists row. split; [exact Hl | exact Hqty].
Defined.

(** * Further properties of the other helpers *)

Lemma ask_quiet {A} (q : Query)
  (run : option uuid -> Tables -> Response A * Tables) (s : Site) :
  script (core s) = [] ->
  ask q run s
  = (fst (run (auth_uid (core s))
              (mkTables (db (core s)) (wishlists s) (payment_methods s))),
     mkSite (mkBackend
               (t_main (snd (run (auth_uid (core s))
                                 (mkTables (db (core s)) (wishlists s)
                                           (payment_methods s)))))
               (auth_uid (core s)) [] (journal (core s)))
            (t_wishlists (snd (run (auth_uid (core s))
                                   (mkTables (db (core s)) (wishlists s)
                                             (payment_methods s)))))
            (t_payment_methods (snd (run (auth_uid (core s))
                                         (mkTables (db (core s)) (wishlists s)
                                                   (payment_methods s)))))
            (queries s ++ [q])).
Proof.
  intros H. unfold ask. rewrite H. cbn [hd tl rival].
  destruct (run (auth_uid (core s)) _); reflexivity.
Qed.


(** Another session's insert of a cart line leaves the catalogue, the
    profiles and the orders alone. *)
Lemma rival_elsewhere (a : Ambient) (d : Database) :
  profiles (rival a d) = profiles d /\ products (rival a d) = products d
  /\ orders (rival a d) = orders d.
Proof.
  destruct a as [| |u p q]; cbn [rival]; try (repeat split; reflexivity).
  apply insert_cart_item_elsewhere.
Qed.

(** ** The admin test of the client *)




(** ** Reading the catalogue *)

Lemma getAll_value (s : Site) :
  fst (products.getAll s)
  = match hd Quiet (script (core s)) with
    | Outage => []
    | a => if Pg.authenticated (auth_uid (core s)) then []
           else rev (filter (fun p => p_is_active p && PgSite.anyone_can_view p)
                            (products (rival a (db (core s)))))
    end.
Proof.
  unfold products.getAll, ask, PgSite.select_active_products, PgSite.refused.
  destruct (hd Quiet (script (core s))); trivial;
    destruct (Pg.authenticated (auth_uid (core s))); reflexivity.
Qed.

Lemma getAllForAdmin_value (s : Site) :
  fst (products.getAllForAdmin s)
  = match hd Quiet (script (core s)) with
    | Outage => []
    | a => if Pg.authenticated (auth_uid (core s)) then []
           else rev (filter PgSite.anyone_can_view (products (rival a (db (core s)))))
    end.
Proof.
  unfold products.getAllForAdmin, ask, PgSite.select_all_products, PgSite.refused.
  destruct (hd Quiet (script (core s))); trivial;
    destruct (Pg.authenticated (auth_uid (core s))); reflexivity.
Qed.

Lemma rev_filter_In {A} (f : A -> bool) (l : list A) (x : A) :
  In x (rev (filter f l)) -> In x l /\ f x = true.
Proof. intros H. apply in_rev in H. now apply filter_In in H. Qed.

(** X13: whatever the session and the behaviour of the service,
    [products.getAll] lists only active products on file and
    [products.getById] answers only with an active product on file that
    carries the id asked for; [products.getAllForAdmin] lists what
    [products.getAll] lists, for every session; and a signed-in session
    is shown no product at all. *)
Theorem catalogue_reads_show_active_products (s : Site) :
  (forall p, In p (fst (products.getAll s)) ->
             p_is_active p = true /\ In p (products (db (core s))))
  /\ (forall i p, fst (products.getById i s) = Some p ->
                  p_is_active p = true /\ p_id p = i /\ In p (products (db (core s))))
  /\ fst (products.getAllForAdmin s) = fst (products.getAll s)
  /\ (Pg.authenticated (auth_uid (core s)) = true ->
      fst (products.getAll s) = [] /\ forall i, fst (products.getById i s) = None).
Proof.
  split; [|split; [|split]].
  - intros p. rewrite getAll_value.
    destruct (hd Quiet (script (core s))) eqn:Ea; try contradiction;
      (destruct (Pg.authenticated (auth_uid (core s))); [contradiction|]);
      intros Hin; apply rev_filter_In in Hin; destruct Hin as [Hin Hf];
      apply andb_prop in Hf; destruct Hf as [Hact _];
      rewrite (proj1 (proj2 (rival_elsewhere _ _))) in Hin;
      now split.
  - intros i p. unfold products.getById, ask, PgSite.select_product, PgSite.refused.
    destruct (hd Quiet (script (core s))) eqn:Ea; cbn [fst row_or_null error failed];
      try discriminate;
      (destruct (Pg.authenticated (auth_uid (core s)));
       cbn [fst row_or_null error failed]; try discriminate);
      cbn [t_main];
      (destruct (filter _ (products _)) as [|p0 [|p1 l]] eqn:F;
       cbn [fst row_or_null error data ok failed]; try discriminate;
       intros E; injection E as <-;
       match type of F with filter ?f ?l = _ =>
         assert (Hin : In p0 (filter f l)) by (rewrite F; now left) end;
       apply filter_In in Hin; destruct Hin as [Hin Hf];
       apply andb_prop in Hf; destruct Hf as [Hf _];
       apply andb_prop in Hf; destruct Hf as [Hid Hact];
       apply Nat.eqb_eq in Hid;
       rewrite (proj1 (proj2 (rival_elsewhere _ _))) in Hin; now repeat split).
  - rewrite getAllForAdmin_value, getAll_value.
    destruct (hd Quiet (script (core s))) eqn:Ea; trivial;
      (destruct (Pg.authenticated (auth_uid (core s))); trivial);
      f_equal; apply filter_ext; intros p;
      unfold PgSite.anyone_can_view; now destruct (p_is_active p).
  - intros Hauth. split.
    + rewrite getAll_value, Hauth. now destruct (hd Quiet (script (core s))).
    + intros i. unfold products.getById, ask, PgSite.select_product, PgSite.refused.
      rewrite Hauth. now destruct (hd Quiet (script (core s))).
Qed.

Lemma catalogue_reads_show_active_products_witness :
  fst (products.getAll (Demo.site Sample.shop_retired Sample.shopper [])) = []
  /\ fst (products.getAllForAdmin (Demo.open_site Sample.shop_retired []))
     = fst (products.getAll (Demo.open_site Sample.shop_retired [])).
Proof.
  split.
  - exact (proj1 (proj2 (proj2 (proj2 (catalogue_reads_show_active_products
                                        (Demo.site Sample.shop_retired Sample.shopper []))))
                   eq_refl)).
  - exact (proj1 (proj2 (proj2 (catalogue_reads_show_active_products
                                  (Demo.open_site Sample.shop_retired []))))).
Defined.

(** ** Deleting a product *)



(** ** Creating and listing orders *)







(** ** The orders tab after a status change *)




(** ** The wishlist *)

Lemma own_wish_filter (u p : uuid) (rows : list WishlistRow) :
  filter (fun r => PgSite.same_wish u p r && PgSite.owns_wish (Some u) r) rows
  = filter (PgSite.same_wish u p) rows.
Proof.
  apply filter_ext. intros r. unfold PgSite.same_wish, PgSite.owns_wish.
  destruct (Nat.eqb (wl_user_id r) u); cbn [andb]; [apply andb_true_r | reflexivity].
Qed.

Lemma same_wish_key (u p : uuid) (r : WishlistRow) :
  PgSite.same_wish u p r = true -> wish_key r = (u, p).
Proof.
  unfold PgSite.same_wish, wish_key. intros H. apply andb_prop in H.
  destruct H as [Hu Hp]. apply Nat.eqb_eq in Hu, Hp. congruence.
Qed.

(** On a keyed wishlist the owner's [isInWishlist] is membership. *)
Lemma isInWishlist_membership (s : Site) (u p : uuid) :
  script (core s) = [] -> auth_uid (core s) = Some u ->
  NoDup (map wish_key (wishlists s)) ->
  fst (wishlist.isInWishlist u p s) = existsb (PgSite.same_wish u p) (wishlists s).
Proof.
  intros Hq Hu Hnd. unfold wishlist.isInWishlist.
  rewrite (ask_quiet _ _ s Hq), Hu. cbn [fst].
  unfold PgSite.select_wishlist_entry. cbn [t_wishlists]. rewrite own_wish_filter.
  destruct (filter_by_key_cases wish_key (PgSite.same_wish u p) (u, p) (wishlists s)
              (same_wish_key u p) Hnd) as [Hnone | [r [Hr [Hhit Hone]]]].
  - rewrite Hnone. cbn. symmetry. now apply existsb_false_filter.
  - rewrite Hone. cbn. symmetry. apply existsb_exists. now exists r.
Qed.

Lemma add_quiet (s : Site) (u p : uuid) :
  script (core s) = [] -> auth_uid (core s) = Some u ->
  has_profile u (db (core s)) = true -> has_product p (db (core s)) = true ->
  script (core (snd (wishlist.add u p s))) = []
  /\ auth_uid (core (snd (wishlist.add u p s))) = Some u
  /\ wishlists (snd (wishlist.add u p s))
     = (if existsb (PgSite.same_wish u p) (wishlists s) then wishlists s
        else wishlists s ++ [mkWishlistRow (next_uuid (db (core s))) u p])
  /\ error (fst (wishlist.add u p s))
     = (if existsb (PgSite.same_wish u p) (wishlists s) then Some UniqueViolation
        else None).
Proof.
  intros Hq Hu Hprof Hprod. unfold wishlist.add.
  rewrite (ask_quiet _ _ s Hq), Hu. cbn [fst snd core script auth_uid wishlists].
  unfold PgSite.insert_wishlist.
  cbn [t_main t_wishlists t_payment_methods PgSite.owns_wish wl_user_id].
  rewrite Nat.eqb_refl. cbn [negb].
  unfold has_profile in Hprof. unfold has_product in Hprod.
  destruct (existsb (PgSite.same_wish u p) (wishlists s)).
  - repeat split.
  - rewrite Hprof, Hprod. repeat split.
Qed.

Lemma remove_quiet (s : Site) (u p : uuid) :
  script (core s) = [] -> auth_uid (core s) = Some u ->
  script (core (snd (wishlist.remove u p s))) = []
  /\ auth_uid (core (snd (wishlist.remove u p s))) = Some u
  /\ wishlists (snd (wishlist.remove u p s))
     = filter (fun r => negb (PgSite.same_wish u p r)) (wishlists s).
Proof.
  intros Hq Hu. unfold wishlist.remove.
  rewrite (ask_quiet _ _ s Hq), Hu. cbn [fst snd core script auth_uid wishlists].
  unfold PgSite.delete_wishlist. cbn [t_wishlists]. repeat split.
  apply filter_ext. intros r. f_equal.
  unfold PgSite.same_wish, PgSite.owns_wish.
  destruct (Nat.eqb (wl_user_id r) u); cbn [andb]; [apply andb_true_r | reflexivity].
Qed.

Lemma wish_keys_after_add (l : list WishlistRow) (u p i : uuid) :
  NoDup (map wish_key l) ->
  NoDup (map wish_key (if existsb (PgSite.same_wish u p) l then l
                       else l ++ [mkWishlistRow i u p])).
Proof.
  intros Hnd. destruct (existsb (PgSite.same_wish u p) l) eqn:Ex; [exact Hnd|].
  rewrite map_app. apply NoDup_app; trivial.
  - cbn. constructor; [intros [] | constructor].
  - intros k Hk [E|[]]. cbn in E. subst k.
    apply in_map_iff in Hk. destruct Hk as [r [Er Hr]].
    apply existsb_false_filter in Ex.
    assert (Hin : In r (filter (PgSite.same_wish u p) l)).
    { apply filter_In. split; trivial. unfold wish_key in Er. unfold PgSite.same_wish.
      injection Er as -> ->. now rewrite !Nat.eqb_refl. }
    rewrite Ex in Hin. contradiction.
Qed.

Lemma member_after_add (l : list WishlistRow) (u p i : uuid) :
  existsb (PgSite.same_wish u p)
          (if existsb (PgSite.same_wish u p) l then l else l ++ [mkWishlistRow i u p])
  = true.
Proof.
  destruct (existsb (PgSite.same_wish u p) l) eqn:Ex; [exact Ex|].
  rewrite existsb_app. cbn. unfold PgSite.same_wish. cbn.
  rewrite !Nat.eqb_refl. cbn. apply orb_true_r.
Qed.

Lemma member_after_remove (l : list WishlistRow) (u p : uuid) :
  existsb (PgSite.same_wish u p) (filter (fun r => negb (PgSite.same_wish u p r)) l)
  = false.
Proof. apply existsb_false_filter. apply filter_complement. Qed.

(** X18: for the signed-in owner on a quiet service, with a keyed
    wishlist and a product on file: after [wishlist.add] the product is in
    the wishlist, once; adding a product that is already there is refused
    with the unique-constraint violation and changes nothing; after
    [wishlist.remove] the product is not in the wishlist. *)
Theorem wishlist_round_trip (s : Site) (u p : uuid) :
  script (core s) = [] -> auth_uid (core s) = Some u ->
  NoDup (map wish_key (wishlists s)) ->
  has_profile u (db (core s)) = true -> has_product p (db (core s)) = true ->
  fst (wishlist.isInWishlist u p (snd (wishlist.add u p s))) = true
  /\ NoDup (map wish_key (wishlists (snd (wishlist.add u p s))))
  /\ (fst (wishlist.isInWishlist u p s) = true ->
      error (fst (wishlist.add u p s)) = Some UniqueViolation
      /\ wishlists (snd (wishlist.add u p s)) = wishlists s)
  /\ fst (wishlist.isInWishlist u p (snd (wishlist.remove u p s))) = false.
Proof.
  intros Hq Hu Hnd Hprof Hprod.
  destruct (add_quiet s u p Hq Hu Hprof Hprod) as [Hq1 [Hu1 [Hw1 He1]]].
  destruct (remove_quiet s u p Hq Hu) as [Hq2 [Hu2 Hw2]].
  assert (Hnd1 : NoDup (map wish_key (wishlists (snd (wishlist.add u p s))))).
  { rewrite Hw1. now apply wish_keys_after_add. }
  split; [|split; [exact Hnd1|split]].
  - rewrite (isInWishlist_membership _ u p Hq1 Hu1 Hnd1), Hw1. apply member_after_add.
  - intros Hin. rewrite (isInWishlist_membership s u p Hq Hu Hnd) in Hin.
    rewrite He1, Hw1, Hin. now split.
  - rewrite (isInWishlist_membership _ u p Hq2 Hu2), Hw2.
    + apply member_after_remove.
    + rewrite Hw2. now apply NoDup_map_filter.
Qed.

Lemma wishlist_round_trip_witness :
  let s := Demo.site Sample.shop Sample.shopper [] in
  fst (wishlist.isInWishlist Sample.shopper 3 (snd (wishlist.add Sample.shopper 3 s))) = true
  /\ error (fst (wishlist.add Sample.shopper 2 s)) = Some UniqueViolation
  /\ fst (wishlist.isInWishlist Sample.shopper 2 (snd (wishlist.remove Sample.shopper 2 s)))
     = false.
Proof.
  cbv zeta.
  assert (Hnd : NoDup (map wish_key (wishlists (Demo.site Sample.shop Sample.shopper [])))).
  { cbn. repeat constructor. intros []. }
  destruct (wishlist_round_trip (Demo.site Sample.shop Sample.shopper []) Sample.shopper 3
              eq_refl eq_refl Hnd eq_refl eq_refl) as [H3 _].
  destruct (wishlist_round_trip (Demo.site Sample.shop Sample.shopper []) Sample.shopper 2
              eq_refl eq_refl Hnd eq_refl eq_refl) as [_ [_ [Hdup Hrm]]].
  split; [exact H3|]. split; [exact (proj1 (Hdup eq_refl)) | exact Hrm].
Defined.

(** X19: for the signed-in owner on a quiet service, with a keyed
    wishlist and a product on file, one click on the wishlist button flips
    its flag, and the flag then says what [wishlist.isInWishlist] says,
    whether or not the flag was right before the click. *)
Theorem toggle_agrees_with_wishlist (s : Site) (b : WishlistButton) (u p : uuid) :
  script (core s) = [] -> auth_uid (core s) = Some u ->
  NoDup (map wish_key (wishlists s)) ->
  has_profile u (db (core s)) = true -> has_product p (db (core s)) = true ->
  let after := handleWishlistToggle (Some u) p (s, b) in
  wb_isInWishlist (snd after) = negb (wb_isInWishlist b)
  /\ fst (wishlist.isInWishlist u p (fst after)) = wb_isInWishlist (snd after)
  /\ wb_loading (snd after) = false.
Proof.
  intros Hq Hu Hnd Hprof Hprod. cbv zeta. unfold handleWishlistToggle.
  destruct (wb_isInWishlist b).
  - destruct (remove_quiet s u p Hq Hu) as [Hq2 [Hu2 Hw2]].
    destruct (wishlist.remove u p s) as [r s']. cbn [fst snd wb_isInWishlist wb_loading] in *.
    split; [reflexivity|]. split; [|reflexivity].
    rewrite (isInWishlist_membership _ u p Hq2 Hu2), Hw2.
    + apply member_after_remove.
    + rewrite Hw2. now apply NoDup_map_filter.
  - destruct (add_quiet s u p Hq Hu Hprof Hprod) as [Hq1 [Hu1 [Hw1 _]]].
    destruct (wishlist.add u p s) as [r s']. cbn [fst snd wb_isInWishlist wb_loading] in *.
    split; [reflexivity|]. split; [|reflexivity].
    rewrite (isInWishlist_membership _ u p Hq1 Hu1), Hw1.
    + apply member_after_add.
    + rewrite Hw1. now apply wish_keys_after_add.
Qed.

Lemma toggle_agrees_with_wishlist_witness :
  let after := handleWishlistToggle (Some Sample.shopper) 2
                 (Demo.site Sample.shop Sample.shopper [], mkWishlistButton false false []) in
  wb_isInWishlist (snd after) = true
  /\ fst (wishlist.isInWishlist Sample.shopper 2 (fst after)) = true.
Proof.
  cbv zeta.
  assert (Hnd : NoDup (map wish_key (wishlists (Demo.site Sample.shop Sample.shopper [])))).
  { cbn. repeat constructor. intros []. }
  destruct (toggle_agrees_with_wishlist (Demo.site Sample.shop Sample.shopper [])
              (mkWishlistButton false false []) Sample.shopper 2
              eq_refl eq_refl Hnd eq_refl eq_refl) as [E1 [E2 _]].
  split; [exact E1 | now rewrite E2, E1].
Defined.

(** ** The default payment method *)

(** X20: for the signed-in user on a quiet service,
    [paymentMethods.setDefault] answers without error and leaves, among
    the user's payment methods, the default flag on exactly those that
    carry the chosen id; the methods of other users are untouched. *)
Theorem setDefault_marks_the_chosen_method (s : Site) (u m : uuid) :
  script (core s) = [] -> auth_uid (core s) = Some u ->
  let res := paymentMethods.setDefault u m s in
  error (fst res) = None
  /\ payment_methods (snd res)
     = map (fun x => if Nat.eqb (pm_user_id x) u
                     then PgSite.set_default_flag (Nat.eqb (pm_id x) m) x else x)
           (payment_methods s)
  /\ (forall x, In x (payment_methods (snd res)) -> pm_user_id x = u ->
                pm_is_default x = Nat.eqb (pm_id x) m).
Proof.
  intros Hq Hu. cbv zeta.
  assert (E : error (fst (paymentMethods.setDefault u m s)) = None
              /\ payment_methods (snd (paymentMethods.setDefault u m s))
                 = map (fun x => if Nat.eqb (pm_user_id x) u
                                 then PgSite.set_default_flag (Nat.eqb (pm_id x) m) x
                                 else x)
                       (payment_methods s)).
  { unfold paymentMethods.setDefault.
    rewrite (ask_quiet _ _ s Hq), Hu. rewrite ask_quiet by reflexivity.
    cbn [fst snd core auth_uid db wishlists payment_methods
         PgSite.clear_defaults PgSite.set_default t_main t_wishlists t_payment_methods].
    split; [reflexivity|]. rewrite map_map. apply map_ext. intros x.
    unfold PgSite.owns_method.
    destruct (Nat.eqb (pm_user_id x) u) eqn:Eu; cbn [andb].
    - cbn [PgSite.set_default_flag pm_id pm_user_id]. rewrite Eu.
      destruct (Nat.eqb (pm_id x) m); reflexivity.
    - rewrite Eu. now rewrite !andb_false_r. }
  destruct E as [E1 E2]. split; [exact E1|]. split; [exact E2|].
  intros x Hx Hux. rewrite E2 in Hx. apply in_map_iff in Hx.
  destruct Hx as [y [<- Hy]].
  destruct (Nat.eqb (pm_user_id y) u) eqn:Eu.
  - reflexivity.
  - apply Nat.eqb_neq in Eu. contradiction.
Qed.

Lemma setDefault_marks_the_chosen_method_witness :
  payment_methods (snd (paymentMethods.setDefault Sample.shopper 24
                          (Demo.site Sample.shop Sample.shopper [])))
  = [mkPaymentMethod 23 Sample.shopper "stripe" "pm_1" false;
     mkPaymentMethod 24 Sample.shopper "mock" "pm_2" true;
     mkPaymentMethod 26 Sample.staff "stripe" "pm_3" true].
Proof.
  destruct (setDefault_marks_the_chosen_method (Demo.site Sample.shop Sample.shopper [])
              Sample.shopper 24 eq_refl eq_refl) as [_ [E _]].
  rewrite E. reflexivity.
Defined.
